(** * discordhook: a client for one Discord webhook endpoint

    A shallow embedding of [discordhook.go] and of the schema records of the
    package.  The four operations of [WebhookAPI] (Execute, Get, Modify,
    Delete) are written in a small state-and-error monad over the client
    value and a log of the calls made on the collaborators (the HTTP
    transport, the response body).  The collaborators themselves -- the JSON
    text layer, the snowflake and time marshallers, the default HTTP client,
    the multipart boundary -- are the fields of an environment record. *)

From Stdlib Require Import String Ascii List ZArith NArith Bool Lia.
From Stdlib Require Import DecimalString DecimalN DecimalPos.
Import ListNotations.
Open Scope string_scope.
Open Scope Z_scope.

(** ** Errors and fallible results *)

(** The [error] values that the package returns or passes through. *)
Inductive error : Type :=
| io_EOF                               (* io.EOF *)
| errors_New (text : string)           (* errors.New(text) *)
| context_Canceled                     (* context.Canceled *)
| context_DeadlineExceeded             (* context.DeadlineExceeded *)
| url_Error (text : string)            (* an error of url.Parse *)
| read_Error (text : string)           (* a failed Read on a stream *)
| transport_Error (text : string)      (* a failure inside http.Client.Do *)
| json_Error (text : string).          (* a failure of the JSON encoder or decoder *)

(** Go's [(value, error)] pair with the usual reading: a non-nil error means
    the value is not to be used. *)
Inductive result (A : Type) : Type :=
| Ok (a : A)
| Err (e : error).
Arguments Ok {A} a.
Arguments Err {A} e.

Definition is_ok {A} (r : result A) : bool :=
  match r with Ok _ => true | Err _ => false end.

Definition rbind {A B} (r : result A) (k : A -> result B) : result B :=
  match r with
  | Ok a => k a
  | Err e => Err e
  end.

Fixpoint rmap_list {A B} (f : A -> result B) (l : list A) : result (list B) :=
  match l with
  | [] => Ok []
  | x :: l' =>
      rbind (f x) (fun y => rbind (rmap_list f l') (fun ys => Ok (y :: ys)))
  end.

(** ** Byte strings

    Go strings are byte sequences; [string] is a sequence of [ascii], one per
    byte. *)
Module Str.

Definition byte_in (lo hi c : ascii) : bool :=
  ((nat_of_ascii lo <=? nat_of_ascii c) && (nat_of_ascii c <=? nat_of_ascii hi))%nat.

Definition is_lower (c : ascii) := byte_in "a" "z" c.
Definition is_upper (c : ascii) := byte_in "A" "Z" c.
Definition is_digit (c : ascii) := byte_in "0" "9" c.
Definition is_alnum (c : ascii) := is_lower c || is_upper c || is_digit c.

Definition is_empty (s : string) : bool :=
  match s with EmptyString => true | String _ _ => false end.

Fixpoint forallb (p : ascii -> bool) (s : string) : bool :=
  match s with
  | EmptyString => true
  | String c s' => p c && forallb p s'
  end.

Fixpoint existsb (p : ascii -> bool) (s : string) : bool :=
  match s with
  | EmptyString => false
  | String c s' => p c || existsb p s'
  end.

(** [strings.Cut(s, sep)] for a one-byte separator: the text before and after
    the first occurrence, or [None] when [sep] does not occur. *)
Fixpoint cut (sep : ascii) (s : string) : option (string * string) :=
  match s with
  | EmptyString => None
  | String c s' =>
      if Ascii.eqb c sep then Some (EmptyString, s')
      else match cut sep s' with
           | Some (before, after) => Some (String c before, after)
           | None => None
           end
  end.

Definition contains (sep : ascii) (s : string) : bool := existsb (Ascii.eqb sep) s.

Fixpoint count (sep : ascii) (s : string) : nat :=
  match s with
  | EmptyString => O
  | String c s' => ((if Ascii.eqb c sep then 1 else 0) + count sep s')%nat
  end.

(** [strings.HasPrefix] is [String.prefix]; [strings.HasSuffix(s, sep)] for a
    one-byte suffix looks at the last byte. *)
Fixpoint last_is (sep : ascii) (s : string) : bool :=
  match s with
  | EmptyString => false
  | String c EmptyString => Ascii.eqb c sep
  | String _ s' => last_is sep s'
  end.

(** The text from the last occurrence of [sep] on (that byte included). *)
Fixpoint from_last (sep : ascii) (s : string) : option string :=
  match s with
  | EmptyString => None
  | String c s' =>
      match from_last sep s' with
      | Some t => Some t
      | None => if Ascii.eqb c sep then Some s else None
      end
  end.

(** [s[n:]]. *)
Fixpoint drop (n : nat) (s : string) : string :=
  match n, s with
  | O, _ => s
  | S n', String _ s' => drop n' s'
  | S _, EmptyString => EmptyString
  end.

(** ASCII lower-casing, byte by byte. *)
Definition lower_byte (c : ascii) : ascii :=
  if is_upper c then ascii_of_nat (nat_of_ascii c + 32) else c.

Fixpoint to_lower (s : string) : string :=
  match s with
  | EmptyString => EmptyString
  | String c s' => String (lower_byte c) (to_lower s')
  end.

End Str.

(** ** strconv *)
Module strconv.

(** [strconv.FormatUint(n, 10)]. *)
Definition FormatUint (n : N) : string := NilZero.string_of_uint (N.to_uint n).

(** [strconv.FormatBool]. *)
Definition FormatBool (b : bool) : string := if b then "true" else "false".

End strconv.

(** ** net/url

    A model of [url.Parse] of the Go standard library, as far as
    [NewWebhookAPI] exercises it: the fragment and query cuts, the scheme
    scan, the split of the authority from the path, the check of the host and
    the percent-decoding of path and fragment.  Two forms of authority are
    left out, because the authority of the one URL this package builds is the
    constant [discord.com]: a userinfo part ([user@host]) and an IP literal
    ([[::1]]); the model answers those two with an error that says so. *)
Module url.

Record URL : Type := {
  Scheme : string;
  Opaque : string;
  Host : string;
  Path : string;
  RawPath : string;
  ForceQuery : bool;
  RawQuery : string;
  Fragment : string;
  RawFragment : string;
}.

Inductive encoding : Type := encodePath | encodeHost | encodeFragment.

Definition is_host_mode (mode : encoding) : bool :=
  match mode with encodeHost => true | _ => false end.

Definition ishex (c : ascii) : bool :=
  Str.is_digit c || Str.byte_in "a" "f" c || Str.byte_in "A" "F" c.

Definition unhex (c : ascii) : nat :=
  if Str.is_digit c then (nat_of_ascii c - 48)%nat
  else if Str.byte_in "a" "f" c then (nat_of_ascii c - 97 + 10)%nat
  else if Str.byte_in "A" "F" c then (nat_of_ascii c - 65 + 10)%nat
  else O.

Definition upperhex (n : nat) : ascii :=
  match String.get n "0123456789ABCDEF" with
  | Some c => c
  | None => "0"%char
  end.

(** [shouldEscape(c, mode)]. *)
Definition shouldEscape (c : ascii) (mode : encoding) : bool :=
  if Str.is_alnum c then false
  else if is_host_mode mode
          && (Str.contains c "!$&'()*+,;=:[]<>" || Ascii.eqb c (ascii_of_nat 34))
  then false
  else if Str.contains c "-_.~" then false
  else if Str.contains c "$&+,/:;=?@" then
    match mode with
    | encodePath => Ascii.eqb c "?"
    | encodeHost => true
    | encodeFragment => false
    end
  else if (match mode with encodeFragment => true | _ => false end)
          && Str.contains c "!()*" then false
  else true.

(** [escape(s, mode)]: every byte that [shouldEscape] names becomes [%XX]. *)
Fixpoint escape (mode : encoding) (s : string) : string :=
  match s with
  | EmptyString => EmptyString
  | String c s' =>
      if shouldEscape c mode then
        String "%" (String (upperhex (nat_of_ascii c / 16))
                      (String (upperhex (nat_of_ascii c mod 16)) (escape mode s')))
      else String c (escape mode s')
  end.

(** [unescape(s, mode)]: the leftmost malformed escape or byte that a host may
    not hold is the error; otherwise every [%XX] is decoded. *)
Fixpoint unescape (mode : encoding) (s : string) : result string :=
  match s with
  | EmptyString => Ok EmptyString
  | String c s' =>
      if Ascii.eqb c "%" then
        match s' with
        | String h1 (String h2 s'') =>
            if ishex h1 && ishex h2 then
              if is_host_mode mode && (unhex h1 <? 8)%nat
                 && negb (Ascii.eqb h1 "2" && Ascii.eqb h2 "5")
              then Err (url_Error "invalid URL escape")
              else rbind (unescape mode s'')
                     (fun t => Ok (String (ascii_of_nat (unhex h1 * 16 + unhex h2)) t))
            else Err (url_Error "invalid URL escape")
        | _ => Err (url_Error "invalid URL escape")
        end
      else if is_host_mode mode && (nat_of_ascii c <? 128)%nat && shouldEscape c encodeHost
      then Err (url_Error "invalid character in host name")
      else rbind (unescape mode s') (fun t => Ok (String c t))
  end.

(** [stringContainsCTLByte]. *)
Definition is_ctl (c : ascii) : bool :=
  (nat_of_ascii c <? 32)%nat || (nat_of_ascii c =? 127)%nat.

Definition stringContainsCTLByte (s : string) : bool := Str.existsb is_ctl s.

(** [getScheme]: the scan for a leading [scheme:].  [first] says that the
    byte looked at is the first one; [None] is the answer "no scheme, the
    whole text is the rest". *)
Fixpoint getScheme_from (first : bool) (s : string) : result (option (string * string)) :=
  match s with
  | EmptyString => Ok None
  | String c s' =>
      if Str.is_lower c || Str.is_upper c then
        match getScheme_from false s' with
        | Ok (Some (scheme, rest)) => Ok (Some (String c scheme, rest))
        | r => r
        end
      else if Str.is_digit c || Str.contains c "+-." then
        if first then Ok None
        else match getScheme_from false s' with
             | Ok (Some (scheme, rest)) => Ok (Some (String c scheme, rest))
             | r => r
             end
      else if Ascii.eqb c ":" then
        if first then Err (url_Error "missing protocol scheme")
        else Ok (Some (EmptyString, s'))
      else Ok None
  end.

Definition getScheme (rawURL : string) : result (string * string) :=
  match getScheme_from true rawURL with
  | Ok (Some (scheme, rest)) => Ok (scheme, rest)
  | Ok None => Ok (EmptyString, rawURL)
  | Err e => Err e
  end.

(** [validOptionalPort]. *)
Definition validOptionalPort (port : string) : bool :=
  match port with
  | EmptyString => true
  | String c digits => Ascii.eqb c ":" && Str.forallb Str.is_digit digits
  end.

(** [parseHost], for a host that is not an IP literal. *)
Definition parseHost (host : string) : result string :=
  if String.prefix "[" host then Err (url_Error "IP literal: outside this model")
  else
    match Str.from_last ":" host with
    | Some colonPort =>
        if validOptionalPort colonPort then unescape encodeHost host
        else Err (url_Error "invalid port after host")
    | None => unescape encodeHost host
    end.

(** [parseAuthority], for an authority without userinfo. *)
Definition parseAuthority (authority : string) : result string :=
  if Str.contains "@" authority then Err (url_Error "userinfo: outside this model")
  else parseHost authority.

(** The methods [setPath] and [setFragment] of [URL]. *)
Definition setPath (u : URL) (p : string) : result URL :=
  rbind (unescape encodePath p) (fun path =>
    Ok {| Scheme := Scheme u; Opaque := Opaque u; Host := Host u;
          Path := path;
          RawPath := if String.eqb p (escape encodePath path) then "" else p;
          ForceQuery := ForceQuery u; RawQuery := RawQuery u;
          Fragment := Fragment u; RawFragment := RawFragment u |}).

Definition setFragment (u : URL) (f : string) : result URL :=
  rbind (unescape encodeFragment f) (fun frag =>
    Ok {| Scheme := Scheme u; Opaque := Opaque u; Host := Host u;
          Path := Path u; RawPath := RawPath u;
          ForceQuery := ForceQuery u; RawQuery := RawQuery u;
          Fragment := frag;
          RawFragment := if String.eqb f (escape encodeFragment frag) then "" else f |}).

Fixpoint drop_last (s : string) : string :=
  match s with
  | EmptyString => EmptyString
  | String _ EmptyString => EmptyString
  | String c s' => String c (drop_last s')
  end.

(** The unexported [parse(rawURL, viaRequest)] at [viaRequest = false]. *)
Definition parse (rawURL : string) : result URL :=
  if stringContainsCTLByte rawURL
  then Err (url_Error "net/url: invalid control character in URL")
  else if String.eqb rawURL "*" then
    Ok {| Scheme := ""; Opaque := ""; Host := ""; Path := "*"; RawPath := "";
          ForceQuery := false; RawQuery := ""; Fragment := ""; RawFragment := "" |}
  else
    rbind (getScheme rawURL) (fun '(scheme0, rest0) =>
      let scheme := Str.to_lower scheme0 in
      let '(rest1, force, query) :=
        if Str.last_is "?" rest0 && Nat.eqb (Str.count "?" rest0) 1
        then (drop_last rest0, true, EmptyString)
        else match Str.cut "?" rest0 with
             | Some (before, after) => (before, false, after)
             | None => (rest0, false, EmptyString)
             end in
      let u0 := {| Scheme := scheme; Opaque := ""; Host := ""; Path := "";
                   RawPath := ""; ForceQuery := force; RawQuery := query;
                   Fragment := ""; RawFragment := "" |} in
      let with_authority (_ : unit) : result URL :=
        if (negb (Str.is_empty scheme) || negb (String.prefix "///" rest1))
           && String.prefix "//" rest1
        then
          let after := Str.drop 2 rest1 in
          let '(authority, rest2) :=
            match Str.cut "/" after with
            | Some (a, r) => (a, String "/" r)
            | None => (after, EmptyString)
            end in
          rbind (parseAuthority authority) (fun host =>
            setPath {| Scheme := scheme; Opaque := ""; Host := host; Path := "";
                       RawPath := ""; ForceQuery := force; RawQuery := query;
                       Fragment := ""; RawFragment := "" |} rest2)
        else setPath u0 rest1 in
      if negb (String.prefix "/" rest1) then
        if negb (Str.is_empty scheme) then
          Ok {| Scheme := scheme; Opaque := rest1; Host := ""; Path := "";
                RawPath := ""; ForceQuery := force; RawQuery := query;
                Fragment := ""; RawFragment := "" |}
        else
          let segment := match Str.cut "/" rest1 with
                         | Some (a, _) => a
                         | None => rest1
                         end in
          if Str.contains ":" segment
          then Err (url_Error "first path segment in URL cannot contain colon")
          else with_authority tt
      else with_authority tt).

(** [url.Parse]. *)
Definition Parse (rawURL : string) : result URL :=
  let '(u, frag) := match Str.cut "#" rawURL with
                    | Some (a, f) => (a, f)
                    | None => (rawURL, EmptyString)
                    end in
  rbind (parse u) (fun url =>
    if Str.is_empty frag then Ok url else setFragment url frag).

End url.

(** ** JSON documents

    The JSON encoder and decoder work on documents; how a document is laid
    out as text, and read back from text, is the JSON library's business
    (see [json_parse] in the environment below).  The numbers of the
    records of this package are integers. *)
#[local] Unset Elimination Schemes.
Inductive json : Type :=
| JNull
| JBool (b : bool)
| JNum (z : Z)
| JStr (s : string)
| JArr (items : list json)
| JObj (members : list (string * json)).
#[local] Set Elimination Schemes.

Module reflect.

(** What the struct tags of the package ask of the encoder.  A field tagged
    [json:"key"] is always written; one tagged [json:"key,omitempty"] is
    left out when it holds the zero value of its type.  An option the
    encoder does not know is ignored. *)
Definition always (key : string) (v : json) : list (string * json) := [(key, v)].

Definition omitempty_string (key : string) (s : string) : list (string * json) :=
  if Str.is_empty s then [] else [(key, JStr s)].

Definition omitempty_bool (key : string) (b : bool) : list (string * json) :=
  if b then [(key, JBool true)] else [].

Definition omitempty_int (key : string) (z : Z) : list (string * json) :=
  if z =? 0 then [] else [(key, JNum z)].

Definition omitempty_ptr {A} (key : string) (enc : A -> json) (p : option A)
  : list (string * json) :=
  match p with
  | None => []
  | Some a => [(key, enc a)]
  end.

Definition omitempty_slice {A} (key : string) (enc : A -> json) (l : list A)
  : list (string * json) :=
  match l with
  | [] => []
  | _ => [(key, JArr (map enc l))]
  end.

(** A pointer that is a value of its own (an element of a slice, the
    argument of [Encode]): nil is written as [null]. *)
Definition ptr {A} (enc : A -> json) (p : option A) : json :=
  match p with
  | None => JNull
  | Some a => enc a
  end.

(** The keys of an object, in the order written. *)
Definition keys (j : json) : list string :=
  match j with
  | JObj members => map fst members
  | _ => []
  end.

(** The decoder matches a member to a field by its tag name, exactly or
    after lower-casing; all tag names of the package are lower-case. *)
Definition key_is (name key : string) : bool :=
  String.eqb key name || String.eqb (Str.to_lower key) name.

Definition has_key (name : string) (j : json) : bool :=
  List.existsb (key_is name) (keys j).

(** Scalars read from a member value; [null] gives the zero value. *)
Definition read_string (v : json) : result string :=
  match v with
  | JStr s => Ok s
  | JNull => Ok ""
  | _ => Err (json_Error "ReadString: expects a string")
  end.


Definition read_int (v : json) : result Z :=
  match v with
  | JNum z =>
      if (- 2 ^ 63 <=? z) && (z <? 2 ^ 63) then Ok z
      else Err (json_Error "ReadInt: overflow")
  | JNull => Ok 0
  | _ => Err (json_Error "ReadInt: expects a number")
  end.

Definition read_ptr {A} (dec : json -> result A) (v : json) : result (option A) :=
  match v with
  | JNull => Ok None
  | _ => rbind (dec v) (fun a => Ok (Some a))
  end.


(** The struct decoder: the members of an object are visited in order, each
    one that names a field is decoded into it, the others are skipped; [null]
    leaves the struct as it is. *)
Fixpoint read_members {S} (set : S -> string -> json -> result S)
  (members : list (string * json)) (s : S) : result S :=
  match members with
  | [] => Ok s
  | (key, v) :: rest => rbind (set s key v) (read_members set rest)
  end.

Definition read_struct {S} (set : S -> string -> json -> result S) (zero : S)
  (v : json) : result S :=
  match v with
  | JObj members => read_members set members zero
  | JNull => Ok zero
  | _ => Err (json_Error "readObjectStart: expects { or null")
  end.

End reflect.

(** ** io, context, mime/multipart and net/http *)

(** An [io.Reader] read to its end: the bytes it yields and, when the stream
    breaks off, the error that ends it in place of [io.EOF]. *)
Record Reader : Type := {
  rd_data : string;
  rd_err : option error;
}.

(** [ioutil.ReadAll]; [io.Copy] into a buffer has the same outcome. *)
Definition read_all (r : Reader) : result string :=
  match rd_err r with
  | None => Ok (rd_data r)
  | Some e => Err e
  end.

(** A [context.Context], as far as a transport looks at it: what [ctx.Err()]
    answers while the request is under way. *)
Record Context : Type := {
  ctx_Err : option error;
}.

Module multipart.

(** What is written into one part of the form: a JSON document put there by
    an encoder, or raw bytes. *)
Inductive chunk : Type :=
| Document (j : json)
| Bytes (data : string).

Record Part : Type := {
  FormName : string;                 (* Content-Disposition: form-data; name= *)
  FileName : option string;          (* ; filename= *)
  ContentType : option string;
  Content : list chunk;
}.

Record Writer : Type := {
  Boundary : string;
  Parts : list Part;
  Closed : bool;                     (* the closing boundary is written *)
}.

Definition NewWriter (boundary : string) : Writer :=
  {| Boundary := boundary; Parts := []; Closed := false |}.

Definition CreateFormField (w : Writer) (fieldname : string) : Writer :=
  {| Boundary := Boundary w;
     Parts := Parts w ++ [{| FormName := fieldname; FileName := None;
                             ContentType := None; Content := [] |}];
     Closed := Closed w |}.

Definition CreateFormFile (w : Writer) (fieldname filename : string) : Writer :=
  {| Boundary := Boundary w;
     Parts := Parts w ++ [{| FormName := fieldname; FileName := Some filename;
                             ContentType := Some "application/octet-stream";
                             Content := [] |}];
     Closed := Closed w |}.

Definition Close (w : Writer) : Writer :=
  {| Boundary := Boundary w; Parts := Parts w; Closed := true |}.

(** A write through the [io.Writer] that [CreateFormField] or
    [CreateFormFile] returned last: it goes into the last part. *)
Fixpoint write_last (parts : list Part) (c : chunk) : list Part :=
  match parts with
  | [] => []
  | [p] => [{| FormName := FormName p; FileName := FileName p;
               ContentType := ContentType p; Content := Content p ++ [c] |}]
  | p :: rest => p :: write_last rest c
  end.

Definition Write (w : Writer) (c : chunk) : Writer :=
  {| Boundary := Boundary w; Parts := write_last (Parts w) c; Closed := Closed w |}.

Definition FormDataContentType (w : Writer) : string :=
  "multipart/form-data; boundary=" ++ Boundary w.

End multipart.

Module http.

(** The body of an outgoing request: the bytes a multipart writer has
    written, or one JSON document. *)
Inductive body : Type :=
| MultipartForm (w : multipart.Writer)
| JSONDocument (j : json).

Record Request : Type := {
  Method : string;
  URL : url.URL;
  Header : list (string * list string);
  Body : option body;
  Ctx : option Context;               (* nil: context.Background() *)
}.

Definition WithContext (req : Request) (ctx : Context) : Request :=
  {| Method := Method req; URL := URL req; Header := Header req;
     Body := Body req; Ctx := Some ctx |}.

Record Response : Type := {
  StatusCode : Z;
  ResBody : Reader;
}.

(** An [*http.Client]: its method [Do]. *)
Record Client : Type := {
  Do : Request -> result Response;
}.

End http.

(** ** The collaborators *)

(** [snowflake.Snowflake] is a [uint64]; the package only passes snowflakes
    on, it does no arithmetic on them. *)
Definition Snowflake : Type := N.

Class Env : Type := {
  (** [time.Time] and its [MarshalJSON], which fails for a year outside
      0..9999, and [UnmarshalJSON]. *)
  Time : Type;
  time_MarshalJSON : Time -> result json;
  time_UnmarshalJSON : json -> result Time;
  (** [snowflake.Snowflake]'s [MarshalJSON] and [UnmarshalJSON]. *)
  snowflake_MarshalJSON : Snowflake -> json;
  snowflake_UnmarshalJSON : json -> result Snowflake;
  (** The record [User] of the package, which is not among the sources, and
      its decoder. *)
  User : Type;
  User_decode : json -> result User;
  (** The reader of JSON text: the first document of the text, or nothing
      when the text does not start with one. *)
  json_parse : string -> option json;
  (** [http.DefaultClient]. *)
  http_DefaultClient : http.Client;
  (** The boundary that [multipart.NewWriter] draws at random. *)
  multipart_boundary : string;
}.

Section Discordhook.

Context {env : Env}.

Import reflect.

(** ** The embed and mention records *)

Record EmbedFooter : Type := {
  EmbedFooter_Text : string;              (* json:"text" *)
  EmbedFooter_IconURL : string;           (* json:"icon_url,omitempty" *)
  EmbedFooter_ProxyIconURL : string;      (* json:"proxy_icon_url,omitempty" *)
}.

Record EmbedImage : Type := {
  EmbedImage_URL : string;                (* json:"url,omitempty" *)
  EmbedImage_ProxyURL : string;           (* json:"proxy_url,omitempty" *)
  EmbedImage_Height : Z;                  (* json:"height,omitempty" *)
  EmbedImage_Width : Z;                   (* json:"width,omitempty" *)
}.

Record EmbedThumbnail : Type := {
  EmbedThumbnail_URL : string;            (* json:"url,omitempty" *)
  EmbedThumbnail_ProxyURL : string;       (* json:"proxy_url,omitempty" *)
  EmbedThumbnail_Height : Z;              (* json:"height,omitempty" *)
  EmbedThumbnail_Width : Z;               (* json:"width,omitempty" *)
}.

Record EmbedVideo : Type := {
  EmbedVideo_URL : string;                (* json:"url,omitempty" *)
  EmbedVideo_Height : Z;                  (* json:"height,omitempty" *)
  EmbedVideo_Width : Z;                   (* json:"width,omitempty" *)
}.

Record EmbedProvider : Type := {
  EmbedProvider_Name : string;            (* json:"name,omitempty" *)
  EmbedProvider_URL : string;             (* json:"url,omitempty" *)
}.

Record EmbedAuthor : Type := {
  EmbedAuthor_Name : string;              (* json:"name,omitempty" *)
  EmbedAuthor_URL : string;               (* json:"url,omitempty" *)
  EmbedAuthor_IconURL : string;           (* json:"icon_url,omitempty" *)
  EmbedAuthor_ProxyIconURL : string;      (* json:"proxy_icon_url,omitempty" *)
}.

Record EmbedField : Type := {
  EmbedField_Name : string;               (* json:"name" *)
  EmbedField_Value : string;              (* json:"value" *)
  EmbedField_Inline : bool;               (* json:"inline,omitempty" *)
}.

(** [EmbedType] and [MentionType] are string types. *)
Definition EmbedType : Type := string.
Definition EmbedTypeRich : EmbedType := "rich".
Definition MentionType : Type := string.
Definition MentionTypeRole : MentionType := "roles".
Definition MentionTypeUser : MentionType := "users".
Definition MentionTypeEveryone : MentionType := "everyone".

Record Embed : Type := {
  Embed_Title : string;                   (* json:"title,omitempty" *)
  Embed_Type : EmbedType;                 (* json:"type,omitempty" *)
  Embed_Description : string;             (* json:"description,omitempty" *)
  Embed_URL : string;                     (* json:"url,omitempty" *)
  Embed_Timestamp : option Time;          (* json:"timestamp,omitempty" *)
  Embed_Color : Z;                        (* json:"color,omitempty" *)
  Embed_Footer : option EmbedFooter;      (* json:"footer,omitempty" *)
  Embed_Image : option EmbedImage;        (* json:"image,omitempty" *)
  Embed_Thumbnail : option EmbedThumbnail;(* json:"thumbnail,omitempty" *)
  Embed_Video : option EmbedVideo;        (* json:"video,omitempty" *)
  Embed_Provider : option EmbedProvider;  (* json:"provider,omitempty" *)
  Embed_Author : option EmbedAuthor;      (* json:"author,omitempty" *)
  Embed_Fields : list (option EmbedField);(* json:"fields,omitempty" *)
}.

Record AllowedMentions : Type := {
  AllowedMentions_Parse : list MentionType;   (* json:"parse,omitempty" *)
  AllowedMentions_Roles : list Snowflake;     (* json:"roles,omitempty" *)
  AllowedMentions_Users : list Snowflake;     (* json:"users,omitempty" *)
}.

(** ** The parameter and result records ([discordhook.go]) *)

Record WebhookExecuteParams : Type := {
  Content : string;                           (* json:"content,omitempty" *)
  Username : string;                          (* json:"username,omitempty" *)
  AvatarURL : string;                         (* json:"avatar_url,omitempty" *)
  TTS : bool;                                 (* json:"tts,omitempty" *)
  Embeds : list (option Embed);               (* json:"embeds,omitempty" *)
  Mentions : option AllowedMentions;          (* AllowedMentions, json:"allowed_mentions,omitempty" *)
}.

Definition WebhookType : Type := Z.
Definition WebhookTypeIncoming : WebhookType := 1.
Definition WebhookTypeChannelFollower : WebhookType := 2.

Record Webhook : Type := {
  Webhook_ID : Snowflake;                     (* json:"id" *)
  Webhook_Type : WebhookType;                 (* json:"type" *)
  Webhook_GuildID : Snowflake;                (* json:"guild_id,omitempty" *)
  Webhook_ChannelID : Snowflake;              (* json:"channel_id" *)
  Webhook_User : option User;                 (* json:"user,omitempty" *)
  Webhook_Name : string;                      (* json:"name,omitempty" *)
  Webhook_Avatar : string;                    (* json:"avatar,omitempty" *)
  Webhook_Token : string;                     (* json:"token,omitempty" *)
}.

(** The three tags of this record carry the option [omitemprty], which the
    encoder does not know. *)
Record WebhookModifyParams : Type := {
  Name : string;                              (* json:"name,omitemprty" *)
  Avatar : string;                            (* json:"avatar,omitemprty" *)
  ChannelID : Snowflake;                      (* json:"channel_id,omitemprty" *)
}.

(** Modelled from the spec: the record [Message], which [Execute] returns and
    whose declaration is not among the sources.  The spec describes it as
    the posted message's "assigned numeric ID and associated fields"; the
    ID is decoded from the member [id] like every snowflake of the package,
    the other members are kept as they came. *)
Record Message : Type := {
  Message_ID : Snowflake;
  Message_Others : list (string * json);
}.

(** ** The encoder, field by field as the tags say *)

Definition encode_EmbedFooter (f : EmbedFooter) : json :=
  JObj (always "text" (JStr (EmbedFooter_Text f))
        ++ omitempty_string "icon_url" (EmbedFooter_IconURL f)
        ++ omitempty_string "proxy_icon_url" (EmbedFooter_ProxyIconURL f)).

Definition encode_EmbedImage (i : EmbedImage) : json :=
  JObj (omitempty_string "url" (EmbedImage_URL i)
        ++ omitempty_string "proxy_url" (EmbedImage_ProxyURL i)
        ++ omitempty_int "height" (EmbedImage_Height i)
        ++ omitempty_int "width" (EmbedImage_Width i)).

Definition encode_EmbedThumbnail (t : EmbedThumbnail) : json :=
  JObj (omitempty_string "url" (EmbedThumbnail_URL t)
        ++ omitempty_string "proxy_url" (EmbedThumbnail_ProxyURL t)
        ++ omitempty_int "height" (EmbedThumbnail_Height t)
        ++ omitempty_int "width" (EmbedThumbnail_Width t)).

Definition encode_EmbedVideo (v : EmbedVideo) : json :=
  JObj (omitempty_string "url" (EmbedVideo_URL v)
        ++ omitempty_int "height" (EmbedVideo_Height v)
        ++ omitempty_int "width" (EmbedVideo_Width v)).

Definition encode_EmbedProvider (p : EmbedProvider) : json :=
  JObj (omitempty_string "name" (EmbedProvider_Name p)
        ++ omitempty_string "url" (EmbedProvider_URL p)).

Definition encode_EmbedAuthor (a : EmbedAuthor) : json :=
  JObj (omitempty_string "name" (EmbedAuthor_Name a)
        ++ omitempty_string "url" (EmbedAuthor_URL a)
        ++ omitempty_string "icon_url" (EmbedAuthor_IconURL a)
        ++ omitempty_string "proxy_icon_url" (EmbedAuthor_ProxyIconURL a)).

Definition encode_EmbedField (f : EmbedField) : json :=
  JObj (always "name" (JStr (EmbedField_Name f))
        ++ always "value" (JStr (EmbedField_Value f))
        ++ omitempty_bool "inline" (EmbedField_Inline f)).

(** The one step of the encoder that can fail is [MarshalJSON] of a
    timestamp. *)
Definition encode_timestamp (t : option Time) : result (list (string * json)) :=
  match t with
  | None => Ok []
  | Some t => rbind (time_MarshalJSON t) (fun j => Ok [("timestamp", j)])
  end.

Definition encode_Embed (e : Embed) : result json :=
  rbind (encode_timestamp (Embed_Timestamp e)) (fun timestamp =>
    Ok (JObj (omitempty_string "title" (Embed_Title e)
              ++ omitempty_string "type" (Embed_Type e)
              ++ omitempty_string "description" (Embed_Description e)
              ++ omitempty_string "url" (Embed_URL e)
              ++ timestamp
              ++ omitempty_int "color" (Embed_Color e)
              ++ omitempty_ptr "footer" encode_EmbedFooter (Embed_Footer e)
              ++ omitempty_ptr "image" encode_EmbedImage (Embed_Image e)
              ++ omitempty_ptr "thumbnail" encode_EmbedThumbnail (Embed_Thumbnail e)
              ++ omitempty_ptr "video" encode_EmbedVideo (Embed_Video e)
              ++ omitempty_ptr "provider" encode_EmbedProvider (Embed_Provider e)
              ++ omitempty_ptr "author" encode_EmbedAuthor (Embed_Author e)
              ++ omitempty_slice "fields" (ptr encode_EmbedField) (Embed_Fields e)))).

Definition encode_Embed_ptr (e : option Embed) : result json :=
  match e with
  | None => Ok JNull
  | Some e => encode_Embed e
  end.

Definition encode_embeds (l : list (option Embed)) : result (list (string * json)) :=
  match l with
  | [] => Ok []
  | _ => rbind (rmap_list encode_Embed_ptr l) (fun items => Ok [("embeds", JArr items)])
  end.

Definition encode_AllowedMentions (a : AllowedMentions) : json :=
  JObj (omitempty_slice "parse" JStr (AllowedMentions_Parse a)
        ++ omitempty_slice "roles" snowflake_MarshalJSON (AllowedMentions_Roles a)
        ++ omitempty_slice "users" snowflake_MarshalJSON (AllowedMentions_Users a)).

Definition encode_WebhookExecuteParams (p : WebhookExecuteParams) : result json :=
  rbind (encode_embeds (Embeds p)) (fun embeds =>
    Ok (JObj (omitempty_string "content" (Content p)
              ++ omitempty_string "username" (Username p)
              ++ omitempty_string "avatar_url" (AvatarURL p)
              ++ omitempty_bool "tts" (TTS p)
              ++ embeds
              ++ omitempty_ptr "allowed_mentions" encode_AllowedMentions (Mentions p)))).

Definition encode_WebhookModifyParams (p : WebhookModifyParams) : json :=
  JObj (always "name" (JStr (Name p))
        ++ always "avatar" (JStr (Avatar p))
        ++ always "channel_id" (snowflake_MarshalJSON (ChannelID p))).

(** [Encode(wep)] and [Encode(wmp)] take a pointer: nil is written as
    [null]. *)
Definition Encode_wep (wep : option WebhookExecuteParams) : result json :=
  match wep with
  | None => Ok JNull
  | Some p => encode_WebhookExecuteParams p
  end.

Definition Encode_wmp (wmp : option WebhookModifyParams) : result json :=
  Ok (ptr encode_WebhookModifyParams wmp).

(** ** The decoder

    One keyed setter per record: the member [key] is decoded into the field
    whose tag names it.  [Webhook] and [Message] are the records the methods
    decode; the decoder of the parameter records is what the same tags mean
    to the JSON library when a document is read back. *)












































































Definition with_Webhook_ID (x : _) (w : Webhook) : Webhook :=
  {| Webhook_ID := x; Webhook_Type := Webhook_Type w;
     Webhook_GuildID := Webhook_GuildID w; Webhook_ChannelID := Webhook_ChannelID w;
     Webhook_User := Webhook_User w; Webhook_Name := Webhook_Name w;
     Webhook_Avatar := Webhook_Avatar w; Webhook_Token := Webhook_Token w |}.

Definition with_Webhook_Type (x : _) (w : Webhook) : Webhook :=
  {| Webhook_ID := Webhook_ID w; Webhook_Type := x;
     Webhook_GuildID := Webhook_GuildID w; Webhook_ChannelID := Webhook_ChannelID w;
     Webhook_User := Webhook_User w; Webhook_Name := Webhook_Name w;
     Webhook_Avatar := Webhook_Avatar w; Webhook_Token := Webhook_Token w |}.

Definition with_Webhook_GuildID (x : _) (w : Webhook) : Webhook :=
  {| Webhook_ID := Webhook_ID w; Webhook_Type := Webhook_Type w;
     Webhook_GuildID := x; Webhook_ChannelID := Webhook_ChannelID w;
     Webhook_User := Webhook_User w; Webhook_Name := Webhook_Name w;
     Webhook_Avatar := Webhook_Avatar w; Webhook_Token := Webhook_Token w |}.

Definition with_Webhook_ChannelID (x : _) (w : Webhook) : Webhook :=
  {| Webhook_ID := Webhook_ID w; Webhook_Type := Webhook_Type w;
     Webhook_GuildID := Webhook_GuildID w; Webhook_ChannelID := x;
     Webhook_User := Webhook_User w; Webhook_Name := Webhook_Name w;
     Webhook_Avatar := Webhook_Avatar w; Webhook_Token := Webhook_Token w |}.

Definition with_Webhook_User (x : _) (w : Webhook) : Webhook :=
  {| Webhook_ID := Webhook_ID w; Webhook_Type := Webhook_Type w;
     Webhook_GuildID := Webhook_GuildID w; Webhook_ChannelID := Webhook_ChannelID w;
     Webhook_User := x; Webhook_Name := Webhook_Name w;
     Webhook_Avatar := Webhook_Avatar w; Webhook_Token := Webhook_Token w |}.

Definition with_Webhook_Name (x : _) (w : Webhook) : Webhook :=
  {| Webhook_ID := Webhook_ID w; Webhook_Type := Webhook_Type w;
     Webhook_GuildID := Webhook_GuildID w; Webhook_ChannelID := Webhook_ChannelID w;
     Webhook_User := Webhook_User w; Webhook_Name := x;
     Webhook_Avatar := Webhook_Avatar w; Webhook_Token := Webhook_Token w |}.

Definition with_Webhook_Avatar (x : _) (w : Webhook) : Webhook :=
  {| Webhook_ID := Webhook_ID w; Webhook_Type := Webhook_Type w;
     Webhook_GuildID := Webhook_GuildID w; Webhook_ChannelID := Webhook_ChannelID w;
     Webhook_User := Webhook_User w; Webhook_Name := Webhook_Name w;
     Webhook_Avatar := x; Webhook_Token := Webhook_Token w |}.

Definition with_Webhook_Token (x : _) (w : Webhook) : Webhook :=
  {| Webhook_ID := Webhook_ID w; Webhook_Type := Webhook_Type w;
     Webhook_GuildID := Webhook_GuildID w; Webhook_ChannelID := Webhook_ChannelID w;
     Webhook_User := Webhook_User w; Webhook_Name := Webhook_Name w;
     Webhook_Avatar := Webhook_Avatar w; Webhook_Token := x |}.

(** [new(Webhook)]. *)
Definition new_Webhook : Webhook :=
  {| Webhook_ID := 0%N; Webhook_Type := 0; Webhook_GuildID := 0%N;
     Webhook_ChannelID := 0%N; Webhook_User := None; Webhook_Name := "";
     Webhook_Avatar := ""; Webhook_Token := "" |}.

Definition set_Webhook (w : Webhook) (key : string) (v : json) : result Webhook :=
  if key_is "id" key then rbind (snowflake_UnmarshalJSON v) (fun x => Ok (with_Webhook_ID x w))
  else if key_is "type" key then rbind (read_int v) (fun x => Ok (with_Webhook_Type x w))
  else if key_is "guild_id" key then rbind (snowflake_UnmarshalJSON v) (fun x => Ok (with_Webhook_GuildID x w))
  else if key_is "channel_id" key then rbind (snowflake_UnmarshalJSON v) (fun x => Ok (with_Webhook_ChannelID x w))
  else if key_is "user" key then rbind (read_ptr User_decode v) (fun x => Ok (with_Webhook_User x w))
  else if key_is "name" key then rbind (read_string v) (fun x => Ok (with_Webhook_Name x w))
  else if key_is "avatar" key then rbind (read_string v) (fun x => Ok (with_Webhook_Avatar x w))
  else if key_is "token" key then rbind (read_string v) (fun x => Ok (with_Webhook_Token x w))
  else Ok w.

Definition decode_Webhook (v : json) : result Webhook :=
  read_struct set_Webhook new_Webhook v.

Definition set_Message (m : Message) (key : string) (v : json) : result Message :=
  if key_is "id" key then
    rbind (snowflake_UnmarshalJSON v) (fun x =>
      Ok {| Message_ID := x; Message_Others := Message_Others m |})
  else Ok {| Message_ID := Message_ID m; Message_Others := Message_Others m ++ [(key, v)] |}.

(** [new(Message)]. *)
Definition new_Message : Message := {| Message_ID := 0%N; Message_Others := [] |}.

Definition decode_Message (v : json) : result Message :=
  read_struct set_Message new_Message v.

(** [jsoniter.NewDecoder(r).Decode(obj)]: a reader that yields nothing at all
    makes [Decode] answer [io.EOF] before any document is looked for;
    otherwise the text is read as a document and the document is decoded
    into [obj]. *)
Definition Decoder_Decode {A} (dec : json -> result A) (r : Reader) : result A :=
  if Str.is_empty (rd_data r) then Err io_EOF
  else
    match rd_err r with
    | Some e => Err e
    | None =>
        match json_parse (rd_data r) with
        | Some j => dec j
        | None => Err (json_Error "invalid JSON text")
        end
    end.

(** ** The client *)

Record WebhookAPI : Type := {
  URL : url.URL;
  Client : http.Client;
  Wait : bool;
}.

(** [NewWebhookAPI]. *)
Definition NewWebhookAPI (webhookID : Snowflake) (webhookToken : string)
  (wait : bool) (client : option http.Client) : result WebhookAPI :=
  match url.Parse ("https://discord.com/api/webhooks/"
                   ++ strconv.FormatUint webhookID ++ "/" ++ webhookToken
                   ++ "?wait=" ++ strconv.FormatBool wait) with
  | Err err => Err err
  | Ok u =>
      let client := match client with
                    | None => http_DefaultClient
                    | Some c => c
                    end in
      Ok {| URL := u; Client := client; Wait := wait |}
  end.

(** ** The monad of the four methods

    A method runs on the client it is called on and on the record of the
    calls it makes on its collaborators; it returns Go's [(value, error)]. *)
Inductive event : Type :=
| CallDo (req : http.Request)      (* wa.Client.Do(req) *)
| CallReadAll                      (* ioutil.ReadAll(res.Body) *)
| CallDecode                       (* jsoniter.NewDecoder(res.Body).Decode(...) *)
| CallClose.                       (* res.Body.Close() *)

Record State : Type := {
  this : WebhookAPI;
  calls : list event;
}.

Definition M (A : Type) : Type := State -> result A * State.

Definition ret {A} (a : A) : M A := fun st => (Ok a, st).

Definition raise {A} (e : error) : M A := fun st => (Err e, st).

Definition bind {A B} (m : M A) (k : A -> M B) : M B :=
  fun st =>
    match m st with
    | (Ok a, st') => k a st'
    | (Err e, st') => (Err e, st')
    end.

Definition lift {A} (r : result A) : M A := fun st => (r, st).

Definition wa : M WebhookAPI := fun st => (Ok (this st), st).

Definition call (e : event) : M unit :=
  fun st => (Ok tt, {| this := this st; calls := calls st ++ [e] |}).

(** [defer d]: [d] runs when the rest of the method has returned, whatever it
    returned. *)
Definition defer {A} (d : M unit) (rest : M A) : M A :=
  fun st => let '(r, st') := rest st in (r, snd (d st')).

Notation "x <- m ;; k" := (bind m (fun x => k))
  (at level 61, m at next level, right associativity).
Notation "m ;;; k" := (bind m (fun _ => k))
  (at level 61, right associativity).

Definition Client_Do (req : http.Request) : M http.Response :=
  w <- wa ;; call (CallDo req) ;;; lift (http.Do (Client w) req).

Definition ioutil_ReadAll (r : Reader) : M string :=
  call CallReadAll ;;; lift (read_all r).

Definition Decode {A} (dec : json -> result A) (r : Reader) : M A :=
  call CallDecode ;;; lift (Decoder_Decode dec r).

Definition Body_Close : M unit := call CallClose.

Definition with_ctx (ctx : option Context) (req : http.Request) : http.Request :=
  match ctx with
  | Some c => http.WithContext req c
  | None => req
  end.

(** ** Execute *)
Definition Execute (ctx : option Context) (wep : option WebhookExecuteParams)
  (file : option Reader) (filename : string) : M (option Message) :=
  let mw := multipart.NewWriter multipart_boundary in
  let mw := multipart.CreateFormField mw "payload_json" in
  payload <- lift (Encode_wep wep) ;;
  let mw := multipart.Write mw (multipart.Document payload) in
  mw <- match file with
        | Some f =>
            let mw := multipart.CreateFormFile mw "file" filename in
            data <- lift (read_all f) ;;
            ret (multipart.Write mw (multipart.Bytes data))
        | None => ret mw
        end ;;
  let mw := multipart.Close mw in
  w <- wa ;;
  let req := {| http.Method := "POST";
                http.URL := URL w;
                http.Header := [("Content-Type", [multipart.FormDataContentType mw])];
                http.Body := Some (http.MultipartForm mw);
                http.Ctx := None |} in
  let req := with_ctx ctx req in
  res <- Client_Do req ;;
  defer Body_Close
    (if negb (http.StatusCode res =? 200) && negb (http.StatusCode res =? 201)
        && negb (http.StatusCode res =? 204)
     then
       b <- ioutil_ReadAll (http.ResBody res) ;;
       raise (errors_New b)
     else
       w <- wa ;;
       if Wait w then
         msg <- Decode decode_Message (http.ResBody res) ;;
         ret (Some msg)
       else ret None).

(** ** Get *)
Definition Get (ctx : option Context) : M Webhook :=
  w <- wa ;;
  let req := {| http.Method := "GET"; http.URL := URL w; http.Header := [];
                http.Body := None; http.Ctx := None |} in
  let req := with_ctx ctx req in
  res <- Client_Do req ;;
  if negb (http.StatusCode res =? 200) then
    b <- ioutil_ReadAll (http.ResBody res) ;;
    raise (errors_New b)
  else
    wh <- Decode decode_Webhook (http.ResBody res) ;;
    ret wh.

(** ** Modify *)
Definition Modify (ctx : option Context) (wmp : option WebhookModifyParams)
  : M Webhook :=
  doc <- lift (Encode_wmp wmp) ;;
  w <- wa ;;
  let req := {| http.Method := "PATCH"; http.URL := URL w;
                http.Header := [("Content-Type", ["application/json"])];
                http.Body := Some (http.JSONDocument doc);
                http.Ctx := None |} in
  let req := with_ctx ctx req in
  res <- Client_Do req ;;
  if negb (http.StatusCode res =? 200) && negb (http.StatusCode res =? 304) then
    b <- ioutil_ReadAll (http.ResBody res) ;;
    raise (errors_New b)
  else
    wh <- Decode decode_Webhook (http.ResBody res) ;;
    ret wh.

(** ** Delete *)
Definition Delete (ctx : option Context) : M unit :=
  w <- wa ;;
  let req := {| http.Method := "DELETE"; http.URL := URL w; http.Header := [];
                http.Body := None; http.Ctx := None |} in
  res <- Client_Do req ;;
  if negb (http.StatusCode res =? 204) && negb (http.StatusCode res =? 200) then
    b <- ioutil_ReadAll (http.ResBody res) ;;
    raise (errors_New b)
  else ret tt.

(** ** What the methods are checked against *)

(** The status codes each method takes for success. *)
Definition Execute_statuses : list Z := [200; 201; 204].
Definition Get_statuses : list Z := [200].
Definition Modify_statuses : list Z := [200; 304].
Definition Delete_statuses : list Z := [200; 204].

Definition accepts (statuses : list Z) (status : Z) : bool :=
  List.existsb (Z.eqb status) statuses.

(** A result [r] that the status of the response [res] decides: on any
    status outside the set it is the error made of the text of the body;
    it is no error only on a status of the set; and on a status of the set
    it is [on_accept] (as far as [complete] holds). *)
Definition decided_by_status {A} (statuses : list Z) (res : http.Response)
  (r : result A) (complete : Prop) (on_accept : result A) : Prop :=
  (accepts statuses (http.StatusCode res) = false ->
     forall text, read_all (http.ResBody res) = Ok text -> r = Err (errors_New text))
  /\ (is_ok r = true -> accepts statuses (http.StatusCode res) = true)
  /\ (accepts statuses (http.StatusCode res) = true -> complete -> r = on_accept).

(** The form of an [Execute] call: the part [payload_json] with the encoded
    parameters and, when a stream is given, the part [file] with its bytes
    under the file name given. *)
Definition payload_part (payload : json) : multipart.Part :=
  {| multipart.FormName := "payload_json"; multipart.FileName := None;
     multipart.ContentType := None;
     multipart.Content := [multipart.Document payload] |}.

Definition file_part (filename data : string) : multipart.Part :=
  {| multipart.FormName := "file"; multipart.FileName := Some filename;
     multipart.ContentType := Some "application/octet-stream";
     multipart.Content := [multipart.Bytes data] |}.

Definition form (parts : list multipart.Part) : multipart.Writer :=
  {| multipart.Boundary := multipart_boundary; multipart.Parts := parts;
     multipart.Closed := true |}.

Definition Execute_form (wep : option WebhookExecuteParams) (file : option Reader)
  (filename : string) : result multipart.Writer :=
  rbind (Encode_wep wep) (fun payload =>
    match file with
    | None => Ok (form [payload_part payload])
    | Some f =>
        rbind (read_all f) (fun data =>
          Ok (form [payload_part payload; file_part filename data]))
    end).

(** The requests of the four methods. *)
Definition Execute_request (w : WebhookAPI) (ctx : option Context)
  (wep : option WebhookExecuteParams) (file : option Reader) (filename : string)
  : result http.Request :=
  rbind (Execute_form wep file filename) (fun mw =>
    Ok (with_ctx ctx
          {| http.Method := "POST"; http.URL := URL w;
             http.Header := [("Content-Type", [multipart.FormDataContentType mw])];
             http.Body := Some (http.MultipartForm mw); http.Ctx := None |})).

Definition Get_request (w : WebhookAPI) (ctx : option Context) : http.Request :=
  with_ctx ctx {| http.Method := "GET"; http.URL := URL w; http.Header := [];
                  http.Body := None; http.Ctx := None |}.

Definition Modify_request (w : WebhookAPI) (ctx : option Context)
  (wmp : option WebhookModifyParams) : http.Request :=
  with_ctx ctx {| http.Method := "PATCH"; http.URL := URL w;
                  http.Header := [("Content-Type", ["application/json"])];
                  http.Body := Some (http.JSONDocument (ptr encode_WebhookModifyParams wmp));
                  http.Ctx := None |}.

Definition Delete_request (w : WebhookAPI) : http.Request :=
  {| http.Method := "DELETE"; http.URL := URL w; http.Header := [];
     http.Body := None; http.Ctx := None |}.

(** The values of the members of an object that the decoder takes for the
    field tagged [name]. *)
Definition members_named (name : string) (members : list (string * json)) : list json :=
  map snd (filter (fun kv => key_is name (fst kv)) members).

(** A method's result and the calls it made, from a client and an empty
    record of calls. *)
Definition start (w : WebhookAPI) : State := {| this := w; calls := [] |}.

Definition returns {A} (m : M A) (w : WebhookAPI) : result A := fst (m (start w)).

Definition calls_of {A} (m : M A) (w : WebhookAPI) : list event :=
  calls (snd (m (start w))).

Definition logged (st : State) (es : list event) : State :=
  {| this := this st; calls := calls st ++ es |}.

Definition is_CallDecode (e : event) : bool :=
  match e with CallDecode => true | _ => false end.

Definition is_CallDo (e : event) : bool :=
  match e with CallDo _ => true | _ => false end.

Definition is_CallClose (e : event) : bool :=
  match e with CallClose => true | _ => false end.

Definition is_CallReadAll (e : event) : bool :=
  match e with CallReadAll => true | _ => false end.

(** How often a kind of call was made. *)
Definition times (kind : event -> bool) (es : list event) : nat :=
  length (filter kind es).

(** The requests that were handed to the transport, in order. *)
Fixpoint requests (es : list event) : list http.Request :=
  match es with
  | [] => []
  | CallDo req :: es' => req :: requests es'
  | _ :: es' => requests es'
  end.

(** An embed whose time stamp, if it has one, can be marshalled. *)
Definition timestamp_ok (e : option Embed) : Prop :=
  match e with
  | Some e =>
      match Embed_Timestamp e with
      | Some t => is_ok (time_MarshalJSON t) = true
      | None => True
      end
  | None => True
  end.

(** The tag names of [Webhook]. *)
Definition Webhook_keys : list string :=
  ["id"; "type"; "guild_id"; "channel_id"; "user"; "name"; "avatar"; "token"].

(** A member key that names one of the fields [names]. *)
Definition names_field (names : list string) (key : string) : bool :=
  List.existsb (fun name => key_is name key) names.









End Discordhook.

(** A token made of unreserved characters only (RFC 3986, section 2.3), as
    the tokens of the platform are. *)
Definition is_unreserved (c : ascii) : bool := Str.is_alnum c || Str.contains c "-_.~".

Definition url_safe (token : string) : bool := Str.forallb is_unreserved token.

(** A byte that [url.Parse] leaves where it is inside a path: it ends
    nothing (no [#], no [?]), starts no escape, is no control byte, and is
    not one that [escape] would rewrite. *)
Definition path_byte (c : ascii) : bool :=
  negb (Ascii.eqb c "#") && negb (Ascii.eqb c "?") && negb (Ascii.eqb c "%")
  && negb (url.is_ctl c) && negb (url.shouldEscape c url.encodePath).

(** A byte of a query string that [url.Parse] keeps as it is. *)
Definition query_byte (c : ascii) : bool :=
  negb (Ascii.eqb c "#") && negb (url.is_ctl c).

(** The URL of the webhook [id] with [token]. *)
Definition webhook_url (id : Snowflake) (token : string) (wait : bool) : url.URL :=
  {| url.Scheme := "https"; url.Opaque := ""; url.Host := "discord.com";
     url.Path := "/api/webhooks/" ++ strconv.FormatUint id ++ "/" ++ token;
     url.RawPath := ""; url.ForceQuery := false;
     url.RawQuery := "wait=" ++ strconv.FormatBool wait;
     url.Fragment := ""; url.RawFragment := "" |}.

(** ** A reference environment

    Concrete collaborators, to run the model on examples. *)
Module minijson.

(** A reader for the JSON the examples use: objects, arrays, strings with the
    one-letter escapes, integers, [true], [false], [null]. *)
Definition dquote : ascii := ascii_of_nat 34.
Definition backslash : ascii := ascii_of_nat 92.

Definition is_ws (c : ascii) : bool :=
  Ascii.eqb c " " || (nat_of_ascii c =? 9)%nat || (nat_of_ascii c =? 10)%nat
  || (nat_of_ascii c =? 13)%nat.

Fixpoint skip_ws (s : string) : string :=
  match s with
  | String c s' => if is_ws c then skip_ws s' else s
  | EmptyString => s
  end.

Definition escaped (c : ascii) : option ascii :=
  if Ascii.eqb c dquote then Some dquote
  else if Ascii.eqb c backslash then Some backslash
  else if Ascii.eqb c "/" then Some "/"%char
  else if Ascii.eqb c "n" then Some (ascii_of_nat 10)
  else if Ascii.eqb c "r" then Some (ascii_of_nat 13)
  else if Ascii.eqb c "t" then Some (ascii_of_nat 9)
  else None.

(** The text of a string literal after its opening quote, and what follows
    the closing quote. *)
Fixpoint string_tail (s : string) : option (string * string) :=
  match s with
  | EmptyString => None
  | String c s' =>
      if Ascii.eqb c dquote then Some (EmptyString, s')
      else if Ascii.eqb c backslash then
        match s' with
        | String e s'' =>
            match escaped e, string_tail s'' with
            | Some x, Some (t, rest) => Some (String x t, rest)
            | _, _ => None
            end
        | EmptyString => None
        end
      else match string_tail s' with
           | Some (t, rest) => Some (String c t, rest)
           | None => None
           end
  end.

Fixpoint digits (acc : Z) (s : string) : Z * string :=
  match s with
  | String c s' =>
      if Str.is_digit c then digits (10 * acc + Z.of_nat (nat_of_ascii c - 48)) s'
      else (acc, s)
  | EmptyString => (acc, s)
  end.

Definition starts_number (s : string) : bool :=
  match s with
  | String c _ => Str.is_digit c
  | EmptyString => false
  end.

Definition ends_integer (s : string) : bool :=
  match s with
  | String c _ => negb (Str.contains c ".eE")
  | EmptyString => true
  end.

Definition number (s : string) : option (json * string) :=
  let '(neg, s1) := match s with
                    | String "-" s' => (true, s')
                    | _ => (false, s)
                    end in
  if starts_number s1 then
    let '(z, rest) := digits 0 s1 in
    if ends_integer rest then Some (JNum (if neg then - z else z), rest) else None
  else None.

Definition literal (word : string) (v : json) (s : string) : option (json * string) :=
  if String.prefix word s
  then Some (v, Str.drop (String.length word) s)
  else None.

Fixpoint value (fuel : nat) (s : string) : option (json * string) :=
  match fuel with
  | O => None
  | S fuel' =>
      match skip_ws s with
      | EmptyString => None
      | String c s' as s0 =>
          if Ascii.eqb c dquote then
            match string_tail s' with
            | Some (t, rest) => Some (JStr t, rest)
            | None => None
            end
          else if Ascii.eqb c "[" then
            match skip_ws s' with
            | String "]" rest => Some (JArr [], rest)
            | _ => match items fuel' s' with
                   | Some (l, rest) => Some (JArr l, rest)
                   | None => None
                   end
            end
          else if Ascii.eqb c "{" then
            match skip_ws s' with
            | String "}" rest => Some (JObj [], rest)
            | _ => match members fuel' s' with
                   | Some (l, rest) => Some (JObj l, rest)
                   | None => None
                   end
            end
          else if Ascii.eqb c "n" then literal "null" JNull s0
          else if Ascii.eqb c "t" then literal "true" (JBool true) s0
          else if Ascii.eqb c "f" then literal "false" (JBool false) s0
          else number s0
      end
  end
with items (fuel : nat) (s : string) : option (list json * string) :=
  match fuel with
  | O => None
  | S fuel' =>
      match value fuel' s with
      | Some (v, rest) =>
          match skip_ws rest with
          | String "," rest' =>
              match items fuel' rest' with
              | Some (l, rest'') => Some (v :: l, rest'')
              | None => None
              end
          | String "]" rest' => Some ([v], rest')
          | _ => None
          end
      | None => None
      end
  end
with members (fuel : nat) (s : string) : option (list (string * json) * string) :=
  match fuel with
  | O => None
  | S fuel' =>
      match skip_ws s with
      | String c s' =>
          if Ascii.eqb c dquote then
            match string_tail s' with
            | Some (key, rest) =>
                match skip_ws rest with
                | String ":" rest' =>
                    match value fuel' rest' with
                    | Some (v, rest'') =>
                        match skip_ws rest'' with
                        | String "," r =>
                            match members fuel' r with
                            | Some (l, r') => Some ((key, v) :: l, r')
                            | None => None
                            end
                        | String "}" r => Some ([(key, v)], r)
                        | _ => None
                        end
                    | None => None
                    end
                | _ => None
                end
            | None => None
            end
          else None
      | EmptyString => None
      end
  end.

Definition parse (text : string) : option json :=
  match value (2 * String.length text + 2) text with
  | Some (j, _) => Some j
  | None => None
  end.

(** A string literal: the text between double quotes. *)
Definition quoted (s : string) : string := String dquote (s ++ String dquote EmptyString).

End minijson.

Module Reference.

(** A snowflake is written as its decimal text in a string, and read from
    such a string, from a number, or from [null]. *)
Definition snowflake_of_string (s : string) : result Snowflake :=
  match NilZero.uint_of_string s with
  | Some d => Ok (N.of_uint d)
  | None => Err (json_Error "snowflake: not a decimal number")
  end.

Definition snowflake_unmarshal (j : json) : result Snowflake :=
  match j with
  | JStr s => snowflake_of_string s
  | JNum z => if 0 <=? z then Ok (Z.to_N z) else Err (json_Error "snowflake: negative")
  | JNull => Ok 0%N
  | _ => Err (json_Error "snowflake: expects a string or a number")
  end.

(** Timestamps are carried as their RFC 3339 text. *)
Definition time_unmarshal (j : json) : result string :=
  match j with
  | JStr s => Ok s
  | _ => Err (json_Error "time: expects a string")
  end.

(** The default client of a process that has no network. *)
Definition offline : http.Client :=
  {| http.Do := fun _ => Err (transport_Error "dial tcp: no route to host") |}.

#[export] Instance env : Env := {
  Time := string;
  time_MarshalJSON := fun t => Ok (JStr t);
  time_UnmarshalJSON := time_unmarshal;
  snowflake_MarshalJSON := fun n => JStr (strconv.FormatUint n);
  snowflake_UnmarshalJSON := snowflake_unmarshal;
  User := json;
  User_decode := fun j => Ok j;
  json_parse := minijson.parse;
  http_DefaultClient := offline;
  multipart_boundary := "5f1c0d3ab2e94c77";
}.

(** A transport that answers every request with one response, unless the
    context of the request is done: then it gives up with the context's
    error, as the transports of [net/http] do. *)
Definition server (status : Z) (body : string) : http.Client :=
  {| http.Do := fun req =>
       match http.Ctx req with
       | Some {| ctx_Err := Some e |} => Err e
       | _ => Ok {| http.StatusCode := status;
                    http.ResBody := {| rd_data := body; rd_err := None |} |}
       end |}.

Definition canceled : Context := {| ctx_Err := Some context_Canceled |}.

(** A client on the default transport of a process that has no network. *)
Definition unreachable : WebhookAPI :=
  {| URL := {| url.Scheme := "https"; url.Opaque := ""; url.Host := "discord.com";
               url.Path := "/api/webhooks/42/tok"; url.RawPath := "";
               url.ForceQuery := false; url.RawQuery := "wait=true";
               url.Fragment := ""; url.RawFragment := "" |};
     Client := offline; Wait := true |}.

(** A transport whose response breaks off while its body is read. *)
Definition broken_body (status : Z) (e : error) : http.Client :=
  {| http.Do := fun _ =>
       Ok {| http.StatusCode := status;
             http.ResBody := {| rd_data := ""; rd_err := Some e |} |} |}.

(** A token read from a file, with the newline that ended the line; and a
    token that tries to name another host. *)
Definition token_with_newline : string := "TOKENtoken" ++ String (ascii_of_nat 10) "".

Definition hostile_token : string := "tok@evil.example/steal".

(** A webhook as the platform returns it to a caller that presents the
    token: no [user], and a member this package has no field for. *)
Definition bare_webhook : json :=
  JObj [("id", JStr "42"); ("type", JNum 1); ("channel_id", JStr "7");
        ("name", JStr "hook"); ("application_id", JNull); ("token", JStr "tok")].

(** A stream that fails when it is read. *)
Definition broken_file : Reader :=
  {| rd_data := "GIF8"; rd_err := Some (read_Error "unexpected EOF") |}.

Definition endpoint : url.URL :=
  {| url.Scheme := "https"; url.Opaque := ""; url.Host := "discord.com";
     url.Path := "/api/webhooks/42/tok"; url.RawPath := "";
     url.ForceQuery := false; url.RawQuery := "wait=true";
     url.Fragment := ""; url.RawFragment := "" |}.

Definition client (wait : bool) (status : Z) (body : string) : WebhookAPI :=
  {| URL := endpoint; Client := server status body; Wait := wait |}.

Definition response (status : Z) (body : string) : http.Response :=
  {| http.StatusCode := status;
     http.ResBody := {| rd_data := body; rd_err := None |} |}.

(** Sample arguments: a message, an attachment, a rename, and the body of
    the platform's answer to a message posted with wait=true. *)
Definition hello : WebhookExecuteParams :=
  {| Content := "hello"; Username := ""; AvatarURL := ""; TTS := false;
     Embeds := []; Mentions := None |}.

Definition attachment : Reader := {| rd_data := "GIF89a"; rd_err := None |}.

Definition announcement : WebhookExecuteParams :=
  {| Content := ""; Username := "news"; AvatarURL := ""; TTS := false;
     Embeds :=
       [Some {| Embed_Title := "Hi there"; Embed_Type := "";
                Embed_Description := "This is description"; Embed_URL := "";
                Embed_Timestamp := Some "2020-07-01T12:00:00Z";
                Embed_Color := 16711680;
                Embed_Footer := Some {| EmbedFooter_Text := "bye";
                                        EmbedFooter_IconURL := "";
                                        EmbedFooter_ProxyIconURL := "" |};
                Embed_Image := Some {| EmbedImage_URL := "https://example.org/a.png";
                                       EmbedImage_ProxyURL := "";
                                       EmbedImage_Height := 0;
                                       EmbedImage_Width := 0 |};
                Embed_Thumbnail := None; Embed_Video := None;
                Embed_Provider := None; Embed_Author := None;
                Embed_Fields := [Some {| EmbedField_Name := "a";
                                         EmbedField_Value := "b";
                                         EmbedField_Inline := true |}] |}];
     Mentions := Some {| AllowedMentions_Parse := [MentionTypeUser];
                         AllowedMentions_Roles := [];
                         AllowedMentions_Users := [42%N] |} |}.

Definition rename : WebhookModifyParams :=
  {| Name := "new name"; Avatar := ""; ChannelID := 0%N |}.

(** The document [announcement] is encoded to. *)
Definition announcement_document : json :=
  Eval vm_compute in
    match encode_WebhookExecuteParams announcement with
    | Ok j => j
    | Err _ => JNull
    end.

Definition posted : string :=
  "{" ++ minijson.quoted "id" ++ ":" ++ minijson.quoted "1234567890" ++ ","
  ++ minijson.quoted "content" ++ ":" ++ minijson.quoted "hello" ++ "}".

Definition rate_limited : string :=
  "{" ++ minijson.quoted "message" ++ ":" ++ minijson.quoted "rate limited" ++ "}".

(** A second environment, where a time stamp is its year and is written as
    [time.Time] is: [MarshalJSON] refuses a year outside 0..9999. *)
Definition year_marshal (y : Z) : result json :=
  if (0 <=? y) && (y <=? 9999) then Ok (JNum y)
  else Err (json_Error "Time.MarshalJSON: year outside of range [0,9999]").

Definition years : Env := {|
  Time := Z;
  time_MarshalJSON := year_marshal;
  time_UnmarshalJSON := reflect.read_int;
  snowflake_MarshalJSON := fun n => JStr (strconv.FormatUint n);
  snowflake_UnmarshalJSON := snowflake_unmarshal;
  User := json;
  User_decode := fun j => Ok j;
  json_parse := minijson.parse;
  http_DefaultClient := offline;
  multipart_boundary := "5f1c0d3ab2e94c77";
|}.

Definition dated (year : Z) : @WebhookExecuteParams years :=
  @Build_WebhookExecuteParams years "" "" "" false
    [Some (@Build_Embed years "launch" "" "" "" (Some year) 0
             None None None None None None [])]
    None.

End Reference.

(** * Properties *)

(** ** Byte strings and url.Parse *)
Module StrFacts.

Lemma append_assoc (a b c : string) : (a ++ b) ++ c = a ++ b ++ c.
Proof. induction a as [|x a IH]; cbn; [reflexivity|]. rewrite IH. reflexivity. Qed.

Lemma forallb_app (p : ascii -> bool) (a b : string) :
  Str.forallb p (a ++ b) = Str.forallb p a && Str.forallb p b.
Proof.
  induction a as [|c a IH]; cbn; [reflexivity|].
  rewrite IH. apply andb_assoc.
Qed.

Lemma forallb_impl (p q : ascii -> bool) (s : string) :
  (forall c, p c = true -> q c = true) ->
  Str.forallb p s = true -> Str.forallb q s = true.
Proof.
  intros Hpq. induction s as [|c s IH]; cbn; [reflexivity|].
  intros H. apply andb_true_iff in H. destruct H as [Hc Hs].
  rewrite (Hpq c Hc), (IH Hs). reflexivity.
Qed.

Lemma existsb_none (p : ascii -> bool) (s : string) :
  Str.forallb (fun c => negb (p c)) s = true -> Str.existsb p s = false.
Proof.
  induction s as [|c s IH]; cbn; [reflexivity|].
  intros H. apply andb_true_iff in H. destruct H as [Hc Hs].
  apply negb_true_iff in Hc. rewrite Hc, (IH Hs). reflexivity.
Qed.

Lemma cut_none (sep : ascii) (s : string) :
  Str.forallb (fun c => negb (Ascii.eqb c sep)) s = true -> Str.cut sep s = None.
Proof.
  induction s as [|c s IH]; cbn; [reflexivity|].
  intros H. apply andb_true_iff in H. destruct H as [Hc Hs].
  apply negb_true_iff in Hc. rewrite Hc, (IH Hs). reflexivity.
Qed.

Lemma cut_found (sep : ascii) (a b : string) :
  Str.forallb (fun c => negb (Ascii.eqb c sep)) a = true ->
  Str.cut sep (a ++ String sep b) = Some (a, b).
Proof.
  induction a as [|c a IH]; cbn.
  - intros _. rewrite Ascii.eqb_refl. reflexivity.
  - intros H. apply andb_true_iff in H. destruct H as [Hc Hs].
    apply negb_true_iff in Hc. rewrite Hc, (IH Hs). reflexivity.
Qed.

Lemma last_is_app (sep : ascii) (a : string) (c : ascii) (b : string) :
  Str.last_is sep (a ++ String c b) = Str.last_is sep (String c b).
Proof.
  induction a as [|x a IH]; [reflexivity|].
  cbn [append]. rewrite <- IH.
  destruct a; reflexivity.
Qed.

Lemma digits_of_uint (d : Decimal.uint) :
  Str.forallb Str.is_digit (NilEmpty.string_of_uint d) = true.
Proof. induction d; cbn; auto. Qed.

Lemma FormatUint_digits (n : N) :
  Str.forallb Str.is_digit (strconv.FormatUint n) = true.
Proof.
  unfold strconv.FormatUint, NilZero.string_of_uint.
  destruct (N.to_uint n) eqn:E; try reflexivity; rewrite <- E; apply digits_of_uint.
Qed.

Ltac by_cases_on_byte c :=
  destruct c as [[] [] [] [] [] [] [] []]; vm_compute; intros; congruence.

Lemma digit_is_unreserved (c : ascii) :
  Str.is_digit c = true -> is_unreserved c = true.
Proof. by_cases_on_byte c. Qed.

Lemma unreserved_is_path_byte (c : ascii) :
  is_unreserved c = true -> path_byte c = true.
Proof. by_cases_on_byte c. Qed.

Lemma path_byte_no (sep : ascii) :
  sep = "#"%char \/ sep = "?"%char \/ sep = "%"%char ->
  forall c, path_byte c = true -> negb (Ascii.eqb c sep) = true.
Proof.
  intros [-> | [-> | ->]] c; unfold path_byte;
    destruct (Ascii.eqb c "#"), (Ascii.eqb c "?"), (Ascii.eqb c "%"); cbn;
    congruence.
Qed.

Lemma path_byte_no_ctl (c : ascii) : path_byte c = true -> negb (url.is_ctl c) = true.
Proof.
  unfold path_byte. intros H.
  repeat (apply andb_true_iff in H; destruct H as [H ?]). assumption.
Qed.

Lemma path_byte_kept (c : ascii) :
  path_byte c = true -> url.shouldEscape c url.encodePath = false.
Proof.
  unfold path_byte. intros H.
  repeat (apply andb_true_iff in H; destruct H as [H ?]).
  apply negb_true_iff. assumption.
Qed.

Lemma unescape_path (s : string) :
  Str.forallb path_byte s = true -> url.unescape url.encodePath s = Ok s.
Proof.
  induction s as [|c s IH]; cbn; [reflexivity|].
  intros H. apply andb_true_iff in H. destruct H as [Hc Hs].
  pose proof (@path_byte_no "%"%char (or_intror (or_intror eq_refl)) c Hc) as Hp.
  apply negb_true_iff in Hp. rewrite Hp, (IH Hs). reflexivity.
Qed.

Lemma escape_path (s : string) :
  Str.forallb path_byte s = true -> url.escape url.encodePath s = s.
Proof.
  induction s as [|c s IH]; cbn; [reflexivity|].
  intros H. apply andb_true_iff in H. destruct H as [Hc Hs].
  rewrite (path_byte_kept c Hc), (IH Hs). reflexivity.
Qed.

Lemma Parse_webhook (tail query : string) :
  Str.forallb path_byte tail = true ->
  Str.forallb query_byte query = true ->
  Str.last_is "?" (String "?" query) = false ->
  url.Parse ("https://discord.com/api/webhooks/" ++ tail ++ "?" ++ query)
  = Ok {| url.Scheme := "https"; url.Opaque := ""; url.Host := "discord.com";
          url.Path := "/api/webhooks/" ++ tail; url.RawPath := "";
          url.ForceQuery := false; url.RawQuery := query;
          url.Fragment := ""; url.RawFragment := "" |}.
Proof.
  intros Htail Hquery Hlast.
  assert (Hpath : Str.forallb path_byte ("/api/webhooks/" ++ tail) = true).
  { rewrite forallb_app, Htail. reflexivity. }
  assert (Hno : forall sep, sep = "#"%char \/ sep = "?"%char \/ sep = "%"%char ->
            Str.forallb (fun c => negb (Ascii.eqb c sep))
              ("//discord.com/api/webhooks/" ++ tail) = true).
  { intros sep Hsep. rewrite forallb_app. apply andb_true_iff. split.
    - destruct Hsep as [-> | [-> | ->]]; reflexivity.
    - exact (forallb_impl _ _ tail (path_byte_no sep Hsep) Htail). }
  assert (Hsplit : "//discord.com/api/webhooks/" ++ tail ++ "?" ++ query
                   = ("//discord.com/api/webhooks/" ++ tail) ++ String "?" query).
  { rewrite append_assoc. reflexivity. }
  assert (Hraw : "https://discord.com/api/webhooks/" ++ tail ++ "?" ++ query
                 = "https:" ++ ("//discord.com/api/webhooks/" ++ tail) ++ String "?" query).
  { rewrite <- Hsplit. reflexivity. }
  assert (Hq : forall c, query_byte c = true ->
                 negb (Ascii.eqb c "#") = true /\ negb (url.is_ctl c) = true).
  { intros c H. apply andb_true_iff in H. exact H. }
  assert (Hpath' : Str.forallb path_byte ("//discord.com/api/webhooks/" ++ tail) = true).
  { rewrite forallb_app, Htail. reflexivity. }
  unfold url.Parse. rewrite Hraw.
  rewrite cut_none.
  2:{ rewrite forallb_app, forallb_app, (Hno "#"%char (or_introl eq_refl)). cbn.
      exact (forallb_impl _ _ query (fun c H => proj1 (Hq c H)) Hquery). }
  unfold url.parse.
  replace (url.stringContainsCTLByte _) with false.
  2:{ symmetry. apply existsb_none. rewrite forallb_app, forallb_app.
      rewrite (forallb_impl _ _ _ path_byte_no_ctl Hpath'). cbn.
      exact (forallb_impl _ _ query (fun c H => proj2 (Hq c H)) Hquery). }
  set (rest1 := "//discord.com/api/webhooks/" ++ tail) in *.
  replace (String.eqb ("https:" ++ rest1 ++ String "?" query) "*") with false
    by reflexivity.
  replace (url.getScheme ("https:" ++ rest1 ++ String "?" query))
    with (Ok ("https", rest1 ++ String "?" query)) by reflexivity.
  cbn [rbind]. cbv beta iota.
  rewrite last_is_app, Hlast. cbn [andb].
  rewrite (cut_found "?" rest1 query (Hno "?"%char (or_intror (or_introl eq_refl)))).
  replace (Str.to_lower "https") with "https" by reflexivity.
  replace (prefix "/" rest1) with true by reflexivity.
  replace (prefix "//" rest1) with true by reflexivity.
  replace (Str.cut "/" (Str.drop 2 rest1))
    with (Some ("discord.com", "api/webhooks/" ++ tail)) by reflexivity.
  cbn [negb Str.is_empty orb andb].
  replace (url.parseAuthority "discord.com") with (Ok "discord.com") by reflexivity.
  cbn [rbind]. unfold url.setPath.
  change (String "/" ("api/webhooks/" ++ tail)) with ("/api/webhooks/" ++ tail).
  rewrite (unescape_path _ Hpath). cbn [rbind].
  rewrite (escape_path _ Hpath), String.eqb_refl.
  reflexivity.
Qed.

End StrFacts.

(** ** Construction *)
Section Construction.

Context {env : Env}.


End Construction.

(** ** The four methods, run

    Each method is one request and one case analysis on the response: the
    lemmas below give, for a state [st], the result and the calls made. *)
Section Methods.

Context {env : Env}.

Import reflect.

Ltac run_method :=
  unfold Client_Do, ioutil_ReadAll, Decode, Body_Close, defer, bind, wa, call,
    lift, ret, raise, logged, accepts; cbn.

Lemma Get_run (ctx : option Context) (st : State) :
  Get ctx st =
  let req := Get_request (this st) ctx in
  match http.Do (Client (this st)) req with
  | Err e => (Err e, logged st [CallDo req])
  | Ok res =>
      if accepts Get_statuses (http.StatusCode res)
      then (Decoder_Decode decode_Webhook (http.ResBody res),
            logged st [CallDo req; CallDecode])
      else (rbind (read_all (http.ResBody res)) (fun b => Err (errors_New b)),
            logged st [CallDo req; CallReadAll])
  end.
Proof.
  unfold Get, Get_request, Get_statuses. run_method.
  destruct (http.Do _ _) as [res|e]; cbn; [|reflexivity].
  destruct (http.StatusCode res =? 200); cbn; rewrite <- ?app_assoc; cbn.
  - destruct (Decoder_Decode _ _); reflexivity.
  - destruct (read_all _); reflexivity.
Qed.

Lemma Modify_run (ctx : option Context) (wmp : option WebhookModifyParams)
  (st : State) :
  Modify ctx wmp st =
  let req := Modify_request (this st) ctx wmp in
  match http.Do (Client (this st)) req with
  | Err e => (Err e, logged st [CallDo req])
  | Ok res =>
      if accepts Modify_statuses (http.StatusCode res)
      then (Decoder_Decode decode_Webhook (http.ResBody res),
            logged st [CallDo req; CallDecode])
      else (rbind (read_all (http.ResBody res)) (fun b => Err (errors_New b)),
            logged st [CallDo req; CallReadAll])
  end.
Proof.
  unfold Modify, Modify_request, Modify_statuses, Encode_wmp. run_method.
  destruct (http.Do _ _) as [res|e]; cbn; [|reflexivity].
  destruct (http.StatusCode res =? 200), (http.StatusCode res =? 304); cbn;
    rewrite <- ?app_assoc; cbn;
    solve [ destruct (Decoder_Decode _ _); reflexivity
          | destruct (read_all _); reflexivity ].
Qed.

Lemma Delete_run (ctx : option Context) (st : State) :
  Delete ctx st =
  let req := Delete_request (this st) in
  match http.Do (Client (this st)) req with
  | Err e => (Err e, logged st [CallDo req])
  | Ok res =>
      if accepts Delete_statuses (http.StatusCode res)
      then (Ok tt, logged st [CallDo req])
      else (rbind (read_all (http.ResBody res)) (fun b => Err (errors_New b)),
            logged st [CallDo req; CallReadAll])
  end.
Proof.
  unfold Delete, Delete_request, Delete_statuses. run_method.
  destruct (http.Do _ _) as [res|e]; cbn; [|reflexivity].
  destruct (http.StatusCode res =? 200), (http.StatusCode res =? 204); cbn;
    rewrite <- ?app_assoc; cbn;
    solve [ reflexivity | destruct (read_all _); reflexivity ].
Qed.

Lemma Execute_run (ctx : option Context) (wep : option WebhookExecuteParams)
  (file : option Reader) (filename : string) (st : State) :
  Execute ctx wep file filename st =
  match Execute_request (this st) ctx wep file filename with
  | Err e => (Err e, st)
  | Ok req =>
      match http.Do (Client (this st)) req with
      | Err e => (Err e, logged st [CallDo req])
      | Ok res =>
          if accepts Execute_statuses (http.StatusCode res)
          then
            if Wait (this st)
            then (rbind (Decoder_Decode decode_Message (http.ResBody res))
                    (fun msg => Ok (Some msg)),
                  logged st [CallDo req; CallDecode; CallClose])
            else (Ok None, logged st [CallDo req; CallClose])
          else (rbind (read_all (http.ResBody res)) (fun b => Err (errors_New b)),
                logged st [CallDo req; CallReadAll; CallClose])
      end
  end.
Proof.
  unfold Execute, Execute_request, Execute_form, Execute_statuses. run_method.
  destruct (Encode_wep wep) as [payload|e]; cbn; [|reflexivity].
  destruct file as [f|]; cbn;
    [destruct (read_all f) as [data|e]; cbn; [|reflexivity] | ];
    (destruct (http.Do _ _) as [res|e]; cbn; [|reflexivity]);
    destruct (http.StatusCode res =? 200), (http.StatusCode res =? 201),
      (http.StatusCode res =? 204); cbn;
    try (destruct (Wait (this st)); cbn);
    try (destruct (Decoder_Decode decode_Message (http.ResBody res)); cbn);
    try (destruct (read_all (http.ResBody res)); cbn);
    rewrite <- ?app_assoc; reflexivity.
Qed.

(** *** Frame *)

(** C9. The client is not written to: after [Execute], [Get], [Modify] and
    [Delete], whatever they return, the client of the final state -- its
    URL, its HTTP client and its wait flag -- is the client the method was
    called on. *)
Theorem client_is_immutable (st : State) (ctx : option Context)
  (wep : option WebhookExecuteParams) (file : option Reader) (filename : string)
  (wmp : option WebhookModifyParams) :
  this (snd (Execute ctx wep file filename st)) = this st
  /\ this (snd (Get ctx st)) = this st
  /\ this (snd (Modify ctx wmp st)) = this st
  /\ this (snd (Delete ctx st)) = this st.
Proof.
  rewrite Execute_run, Get_run, Modify_run, Delete_run. cbv zeta.
  repeat split.
  - destruct (Execute_request _ _ _ _ _) as [req|e]; [|reflexivity].
    destruct (http.Do _ _) as [res|e]; [|reflexivity].
    destruct (accepts _ _), (Wait (this st)); reflexivity.
  - destruct (http.Do _ _) as [res|e]; [|reflexivity].
    destruct (accepts _ _); reflexivity.
  - destruct (http.Do _ _) as [res|e]; [|reflexivity].
    destruct (accepts _ _); reflexivity.
  - destruct (http.Do _ _) as [res|e]; [|reflexivity].
    destruct (accepts _ _); reflexivity.
Qed.

(** *** Status codes *)

Lemma protocol_error_not_ok {A} (r : Reader) :
  is_ok (rbind (read_all r) (fun b => @Err A (errors_New b))) = false.
Proof. destruct (read_all r); reflexivity. Qed.

Lemma decided_intro {A} (statuses : list Z) (res : http.Response)
  (r on_accept : result A) (complete : Prop) :
  r = (if accepts statuses (http.StatusCode res) then on_accept
       else rbind (read_all (http.ResBody res)) (fun b => Err (errors_New b))) ->
  decided_by_status statuses res r complete on_accept.
Proof.
  intros ->. unfold decided_by_status.
  destruct (accepts statuses (http.StatusCode res)); repeat split;
    try discriminate; try reflexivity.
  - intros _ text ->. reflexivity.
  - rewrite protocol_error_not_ok. discriminate.
Qed.

(** C4, as amended. Each method passes a response on exactly its own set of
    status codes: [Execute] 200, 201 and 204, [Get] 200, [Modify] 200 and
    304, [Delete] 200 and 204.  On any other status it reads the whole body
    and returns it, verbatim, as the text of the error, and it returns
    without error only on a status of its set.  On a status of the set,
    [Delete] and [Execute] without wait succeed, and [Get], [Modify] (for a
    body that is not empty) and [Execute] with wait return what the decoder
    makes of the body. *)
Theorem status_decides_success (w : WebhookAPI) (res : http.Response) :
  (forall ctx wep file filename req,
      Execute_request w ctx wep file filename = Ok req ->
      http.Do (Client w) req = Ok res ->
      decided_by_status Execute_statuses res
        (returns (Execute ctx wep file filename) w)
        True
        (if Wait w
         then rbind (Decoder_Decode decode_Message (http.ResBody res))
                (fun msg => Ok (Some msg))
         else Ok None))
  /\ (forall ctx,
        http.Do (Client w) (Get_request w ctx) = Ok res ->
        decided_by_status Get_statuses res
          (returns (Get ctx) w)
          True
          (Decoder_Decode decode_Webhook (http.ResBody res)))
  /\ (forall ctx wmp,
        http.Do (Client w) (Modify_request w ctx wmp) = Ok res ->
        decided_by_status Modify_statuses res
          (returns (Modify ctx wmp) w)
          (Str.is_empty (rd_data (http.ResBody res)) = false)
          (Decoder_Decode decode_Webhook (http.ResBody res)))
  /\ (forall ctx,
        http.Do (Client w) (Delete_request w) = Ok res ->
        decided_by_status Delete_statuses res
          (returns (Delete ctx) w)
          True
          (Ok tt)).
Proof.
  unfold returns, start. split; [|split; [|split]]; intros; apply decided_intro.
  - rewrite Execute_run. cbn [this]. rewrite H, H0.
    destruct (accepts Execute_statuses _), (Wait w); reflexivity.
  - rewrite Get_run. cbv zeta. cbn [this]. rewrite H.
    destruct (accepts Get_statuses _); reflexivity.
  - rewrite Modify_run. cbv zeta. cbn [this]. rewrite H.
    destruct (accepts Modify_statuses _); reflexivity.
  - rewrite Delete_run. cbv zeta. cbn [this]. rewrite H.
    destruct (accepts Delete_statuses _); reflexivity.
Qed.

(** *** Decoding after a success status *)

(** [Modify] on a 304 without a body: the decoder is called and fails. *)
Lemma Modify_not_modified (w : WebhookAPI) (ctx : option Context)
  (wmp : option WebhookModifyParams) (res : http.Response) :
  http.Do (Client w) (Modify_request w ctx wmp) = Ok res ->
  http.StatusCode res = 304 ->
  rd_data (http.ResBody res) = "" ->
  returns (Modify ctx wmp) w = Err io_EOF.
Proof.
  intros Hdo Hstatus Hempty. unfold returns, start.
  rewrite Modify_run. cbv zeta. cbn [this]. rewrite Hdo, Hstatus.
  unfold Decoder_Decode. rewrite Hempty. reflexivity.
Qed.

(** The request of [Modify] names all three fields, set or not. *)
Lemma Modify_request_keys (w : WebhookAPI) (ctx : option Context)
  (p : WebhookModifyParams) :
  exists doc,
    http.Body (Modify_request w ctx (Some p)) = Some (http.JSONDocument doc)
    /\ keys doc = ["name"; "avatar"; "channel_id"].
Proof.
  exists (encode_WebhookModifyParams p). destruct ctx; split; reflexivity.
Qed.

(** [Execute], [Get] and [Modify] send their request with the context they
    are given. *)
Lemma context_attached (w : WebhookAPI) (c : Context)
  (wep : option WebhookExecuteParams) (file : option Reader) (filename : string)
  (wmp : option WebhookModifyParams) :
  http.Ctx (Get_request w (Some c)) = Some c
  /\ http.Ctx (Modify_request w (Some c) wmp) = Some c
  /\ forall req, Execute_request w (Some c) wep file filename = Ok req ->
                 http.Ctx req = Some c.
Proof.
  split; [reflexivity|]. split; [reflexivity|].
  unfold Execute_request. intros req.
  destruct (Execute_form wep file filename); cbn [rbind]; [|discriminate].
  intros H. injection H as <-. reflexivity.
Qed.

(** [Delete] does not look at its context: its request never carries one. *)
Lemma Delete_request_has_no_context (w : WebhookAPI) :
  http.Ctx (Delete_request w) = None.
Proof. reflexivity. Qed.

Lemma Delete_ignores_ctx (ctx : option Context) (st : State) :
  Delete ctx st = Delete None st.
Proof. reflexivity. Qed.

(** *** Execute and the wait flag *)

Lemma set_Message_other (m : Message) (key : string) (v : json) :
  key_is "id" key = false ->
  exists m', set_Message m key v = Ok m' /\ Message_ID m' = Message_ID m.
Proof.
  intros H. unfold set_Message. rewrite H. eexists. split; reflexivity.
Qed.

Lemma read_Message_no_id (members : list (string * json)) (m : Message) :
  members_named "id" members = [] ->
  exists m', read_members set_Message members m = Ok m'
             /\ Message_ID m' = Message_ID m.
Proof.
  revert m. induction members as [|[key v] rest IH]; intros m Hnone.
  - exists m. split; reflexivity.
  - unfold members_named in Hnone. cbn in Hnone.
    destruct (key_is "id" key) eqn:Hkey; [discriminate|].
    destruct (@set_Message_other m key v Hkey) as [m1 [Hset Hid]].
    destruct (IH m1 Hnone) as [m2 [Hread Hid2]].
    exists m2. cbn. rewrite Hset. cbn. split; [exact Hread | congruence].
Qed.

(** A message decoded from an object with one member [id]: that member was
    unmarshalled, and its snowflake is the ID of the message. *)
Lemma read_Message_id (members : list (string * json)) (m m' : Message) (v : json) :
  members_named "id" members = [v] ->
  read_members set_Message members m = Ok m' ->
  snowflake_UnmarshalJSON v = Ok (Message_ID m').
Proof.
  revert m. induction members as [|[key v0] rest IH]; intros m Hone Hread.
  - discriminate.
  - unfold members_named in Hone. cbn in Hone. cbn in Hread.
    destruct (key_is "id" key) eqn:Hkey.
    + cbn in Hone. injection Hone as -> Hrest.
      unfold set_Message in Hread at 1. rewrite Hkey in Hread.
      destruct (snowflake_UnmarshalJSON v) as [n|] eqn:Hv; [|discriminate].
      cbn in Hread.
      destruct (@read_Message_no_id rest
                  {| Message_ID := n; Message_Others := Message_Others m |} Hrest)
        as [m2 [Hread2 Hid]].
      rewrite Hread in Hread2. injection Hread2 as <-. rewrite Hid. reflexivity.
    + destruct (@set_Message_other m key v0 Hkey) as [m1 [Hset Hid]].
      rewrite Hset in Hread. cbn in Hread. exact (IH m1 Hone Hread).
Qed.

Lemma read_Message_one_id (members : list (string * json)) (m : Message)
  (v : json) (n : Snowflake) :
  members_named "id" members = [v] ->
  snowflake_UnmarshalJSON v = Ok n ->
  exists m', read_members set_Message members m = Ok m' /\ Message_ID m' = n.
Proof.
  revert m. induction members as [|[key v0] rest IH]; intros m Hone Hv.
  - discriminate.
  - unfold members_named in Hone. cbn in Hone.
    destruct (key_is "id" key) eqn:Hkey.
    + cbn in Hone. injection Hone as -> Hrest.
      destruct (@read_Message_no_id rest
                  {| Message_ID := n; Message_Others := Message_Others m |} Hrest)
        as [m2 [Hread Hid]].
      exists m2. cbn. unfold set_Message at 1. rewrite Hkey, Hv. cbn.
      split; [exact Hread | exact Hid].
    + destruct (@set_Message_other m key v0 Hkey) as [m1 [Hset Hid]].
      destruct (IH m1 Hone Hv) as [m2 [Hread Hid2]].
      exists m2. cbn. rewrite Hset. cbn. split; assumption.
Qed.

Lemma decoded_Message_id (body : Reader) (msg : Message)
  (members : list (string * json)) (v : json) :
  Decoder_Decode decode_Message body = Ok msg ->
  json_parse (rd_data body) = Some (JObj members) ->
  members_named "id" members = [v] ->
  snowflake_UnmarshalJSON v = Ok (Message_ID msg).
Proof.
  unfold Decoder_Decode. intros Hdec Hparse Hone.
  destruct (Str.is_empty (rd_data body)); [discriminate|].
  destruct (rd_err body); [discriminate|].
  rewrite Hparse in Hdec. exact (@read_Message_id members new_Message msg v Hone Hdec).
Qed.

(** C5. A client built with wait=false never calls the decoder, whatever the
    body holds, and when [Execute] succeeds it returns no message and no
    error.  A client built with wait=true that succeeds returns the message
    decoded from the body of the response, and when that body is an object
    with one member [id], the ID of the message is the snowflake of that
    member; and a response with a success status and such a body does make
    [Execute] succeed. *)
Theorem Execute_wait_flag (w : WebhookAPI) (ctx : option Context)
  (wep : option WebhookExecuteParams) (file : option Reader) (filename : string) :
  (Wait w = false ->
     List.existsb is_CallDecode (calls_of (Execute ctx wep file filename) w) = false
     /\ (is_ok (returns (Execute ctx wep file filename) w) = true ->
         returns (Execute ctx wep file filename) w = Ok None))
  /\ (Wait w = true ->
      forall r, returns (Execute ctx wep file filename) w = Ok r ->
        exists req res msg,
          Execute_request w ctx wep file filename = Ok req
          /\ http.Do (Client w) req = Ok res
          /\ r = Some msg
          /\ Decoder_Decode decode_Message (http.ResBody res) = Ok msg
          /\ forall members v,
               json_parse (rd_data (http.ResBody res)) = Some (JObj members) ->
               members_named "id" members = [v] ->
               snowflake_UnmarshalJSON v = Ok (Message_ID msg))
  /\ (Wait w = true ->
      forall req res members v n,
        Execute_request w ctx wep file filename = Ok req ->
        http.Do (Client w) req = Ok res ->
        accepts Execute_statuses (http.StatusCode res) = true ->
        Str.is_empty (rd_data (http.ResBody res)) = false ->
        rd_err (http.ResBody res) = None ->
        json_parse (rd_data (http.ResBody res)) = Some (JObj members) ->
        members_named "id" members = [v] ->
        snowflake_UnmarshalJSON v = Ok n ->
        exists msg,
          returns (Execute ctx wep file filename) w = Ok (Some msg)
          /\ Message_ID msg = n).
Proof.
  unfold returns, calls_of, start. rewrite Execute_run. cbn [this].
  split; [|split]; intros Hwait; rewrite Hwait.
  - destruct (Execute_request w ctx wep file filename) as [req|e];
      [|split; [reflexivity | discriminate]].
    destruct (http.Do (Client w) req) as [res|e];
      [|split; [reflexivity | discriminate]].
    destruct (accepts Execute_statuses (http.StatusCode res)).
    + split; reflexivity.
    + split; [reflexivity|]. cbn [fst]. rewrite protocol_error_not_ok. discriminate.
  - intros r Hr.
    destruct (Execute_request w ctx wep file filename) as [req|e] eqn:Hreq;
      [|discriminate].
    destruct (http.Do (Client w) req) as [res|e] eqn:Hdo; [|discriminate].
    destruct (accepts Execute_statuses (http.StatusCode res)).
    + cbn [fst] in Hr.
      destruct (Decoder_Decode decode_Message (http.ResBody res)) as [msg|e] eqn:Hdec;
        [|discriminate].
      injection Hr as <-. exists req, res, msg.
      split; [reflexivity|]. split; [exact Hdo|]. split; [reflexivity|].
      split; [exact Hdec|].
      intros members v. exact (@decoded_Message_id _ msg members v Hdec).
    + cbn [fst] in Hr. destruct (read_all (http.ResBody res)); discriminate.
  - intros req res members v n Hreq Hdo Hstatus Hdata Herr Hparse Hone Hv.
    rewrite Hreq, Hdo, Hstatus. cbn [fst].
    unfold Decoder_Decode. rewrite Hdata, Herr, Hparse.
    destruct (@read_Message_one_id members new_Message v n Hone Hv) as [msg [Hread Hid]].
    exists msg. unfold decode_Message, read_struct. rewrite Hread.
    split; [reflexivity | exact Hid].
Qed.

(** C10. A client built with wait=true that receives a success status with
    an empty body (a 204, say) still calls the decoder, and [Execute]
    returns the decoder's error, [io.EOF], not success. *)
Theorem Execute_wait_empty_body (w : WebhookAPI) (ctx : option Context)
  (wep : option WebhookExecuteParams) (file : option Reader) (filename : string)
  (req : http.Request) (res : http.Response) :
  Execute_request w ctx wep file filename = Ok req ->
  http.Do (Client w) req = Ok res ->
  Wait w = true ->
  accepts Execute_statuses (http.StatusCode res) = true ->
  rd_data (http.ResBody res) = "" ->
  returns (Execute ctx wep file filename) w = Err io_EOF
  /\ List.existsb is_CallDecode (calls_of (Execute ctx wep file filename) w) = true.
Proof.
  intros Hreq Hdo Hwait Hstatus Hempty. unfold returns, calls_of, start.
  rewrite Execute_run. cbn [this]. rewrite Hreq, Hdo, Hstatus, Hwait.
  unfold Decoder_Decode. rewrite Hempty. split; reflexivity.
Qed.

(** *** The body of Execute *)

Lemma Execute_request_form (w : WebhookAPI) (ctx : option Context)
  (wep : option WebhookExecuteParams) (file : option Reader) (filename : string)
  (req : http.Request) :
  Execute_request w ctx wep file filename = Ok req ->
  exists payload,
    Encode_wep wep = Ok payload
    /\ http.Method req = "POST"
    /\ http.Header req
       = [("Content-Type", ["multipart/form-data; boundary=" ++ multipart_boundary])]
    /\ http.Body req
       = Some (http.MultipartForm
                 (form (payload_part payload
                        :: match file with
                           | Some f => [file_part filename (rd_data f)]
                           | None => []
                           end))).
Proof.
  unfold Execute_request, Execute_form.
  destruct (Encode_wep wep) as [payload|e]; [|discriminate]. cbn [rbind].
  intros Hreq. exists payload. split; [reflexivity|].
  destruct file as [f|].
  - unfold read_all in Hreq. destruct (rd_err f); [discriminate|].
    cbn [rbind] in Hreq. injection Hreq as <-. destruct ctx; repeat split.
  - cbn [rbind] in Hreq. injection Hreq as <-. destruct ctx; repeat split.
Qed.

Lemma Execute_request_ok (w : WebhookAPI) (ctx : option Context)
  (wep : option WebhookExecuteParams) (file : option Reader) (filename : string)
  (payload : json) :
  Encode_wep wep = Ok payload ->
  (forall f, file = Some f -> rd_err f = None) ->
  exists req, Execute_request w ctx wep file filename = Ok req.
Proof.
  intros Hpayload Hfile. unfold Execute_request, Execute_form.
  rewrite Hpayload. cbn [rbind]. destruct file as [f|].
  - unfold read_all. rewrite (Hfile f eq_refl). eexists. reflexivity.
  - eexists. reflexivity.
Qed.

Lemma Execute_calls (w : WebhookAPI) (ctx : option Context)
  (wep : option WebhookExecuteParams) (file : option Reader) (filename : string) :
  match Execute_request w ctx wep file filename with
  | Ok req => exists rest, calls_of (Execute ctx wep file filename) w = CallDo req :: rest
                           /\ List.existsb is_CallDo rest = false
  | Err _ => calls_of (Execute ctx wep file filename) w = []
  end.
Proof.
  unfold calls_of, start. rewrite Execute_run. cbn [this].
  destruct (Execute_request w ctx wep file filename) as [req|e]; [|reflexivity].
  destruct (http.Do (Client w) req) as [res|e].
  - destruct (accepts _ _); [destruct (Wait w)|]; eexists; split; reflexivity.
  - eexists; split; reflexivity.
Qed.

(** C8. The body of every request that [Execute] sends is a multipart form
    whose first part is the encoded parameters under the field name
    [payload_json], with or without a file, followed by one more part -- the
    bytes of the stream under the file name given -- exactly when a stream
    is supplied.  And every call whose parameters encode and whose stream,
    if any, can be read does send one such request. *)
Theorem Execute_sends_multipart_form (w : WebhookAPI) (ctx : option Context)
  (wep : option WebhookExecuteParams) (file : option Reader) (filename : string) :
  (forall req,
      In (CallDo req) (calls_of (Execute ctx wep file filename) w) ->
      exists payload,
        Encode_wep wep = Ok payload
        /\ http.Body req
           = Some (http.MultipartForm
                     (form (payload_part payload
                            :: match file with
                               | Some f => [file_part filename (rd_data f)]
                               | None => []
                               end))))
  /\ (forall payload,
        Encode_wep wep = Ok payload ->
        (forall f, file = Some f -> rd_err f = None) ->
        exists req rest,
          calls_of (Execute ctx wep file filename) w = CallDo req :: rest
          /\ List.existsb is_CallDo rest = false
          /\ http.Method req = "POST"
          /\ http.Header req
             = [("Content-Type", ["multipart/form-data; boundary=" ++ multipart_boundary])]
          /\ http.Body req
             = Some (http.MultipartForm
                       (form (payload_part payload
                              :: match file with
                                 | Some f => [file_part filename (rd_data f)]
                                 | None => []
                                 end)))).
Proof.
  pose proof (Execute_calls w ctx wep file filename) as Hcalls.
  split.
  - intros req Hin.
    destruct (Execute_request w ctx wep file filename) as [req0|e] eqn:Hreq.
    + destruct Hcalls as [rest [Hcalls Hrest]]. rewrite Hcalls in Hin.
      destruct Hin as [Heq | Hin].
      * injection Heq as <-.
        destruct (Execute_request_form w ctx wep file filename req0 Hreq)
          as [payload [Hpayload [_ [_ Hbody]]]].
        exists payload. split; assumption.
      * exfalso. assert (Hex : List.existsb is_CallDo rest = true).
        { apply List.existsb_exists. exists (CallDo req). split; [exact Hin | reflexivity]. }
        congruence.
    + rewrite Hcalls in Hin. destruct Hin.
  - intros payload Hpayload Hfile.
    destruct (Execute_request_ok w ctx wep file filename payload Hpayload Hfile) as [req Hreq].
    rewrite Hreq in Hcalls. destruct Hcalls as [rest [Hcalls Hrest]].
    destruct (Execute_request_form w ctx wep file filename req Hreq)
      as [payload' [Hpayload' [Hmethod [Hheader Hbody]]]].
    assert (payload' = payload) by congruence. subst payload'.
    exists req, rest. repeat split; assumption.
Qed.

End Methods.

(** ** Encoding and decoding: what is written is read back *)
Section Roundtrip.

Context {env : Env}.

Import reflect.


Lemma read_members_app {S} (set : S -> string -> json -> result S)
  (l1 l2 : list (string * json)) (s : S) :
  read_members set (l1 ++ l2) s = rbind (read_members set l1 s) (read_members set l2).
Proof.
  revert s. induction l1 as [|[key v] l1 IH]; intros s; cbn; [reflexivity|].
  destruct (set s key v); cbn; [apply IH | reflexivity].
Qed.

(** One member written by the encoder, read by the keyed setter [set] of a
    record whose field under [key] is read with [reader] and stored with
    [upd]. *)
Section Field.

Context {S A : Type} (set : S -> string -> json -> result S) (key : string)
  (reader : json -> result A) (upd : A -> S -> S) (s : S).

Hypothesis set_key :
  forall r, set s key r = rbind (reader r) (fun x => Ok (upd x s)).



End Field.

Section Omitempty.

Context {S : Type} (set : S -> string -> json -> result S) (key : string) (s : S).







End Omitempty.



(** One step of a record's round trip: the next group of members is read
    through the lemma [L], and the record read so far is laid out field by
    field. *)
Ltac lay_out :=
  match goal with
  | |- read_members ?set ?l ?s = _ =>
      let s' := eval cbv in s in change (read_members set l s) with (read_members set l s')
  | |- Ok ?s = _ =>
      let s' := eval cbv in s in change (Ok s) with (Ok s')
  end.

(** The setter at a given key: its tests on the key are decided, nothing
    else is unfolded. *)
Ltac at_key :=
  intros;
  match goal with
  | |- ?set _ _ _ = _ => unfold set
  end;
  repeat match goal with
    | |- context [key_is ?name ?key] =>
        let b := eval vm_compute in (key_is name key) in
        change (key_is name key) with b
    end;
  cbv iota; reflexivity.

Tactic Notation "field" uconstr(L) :=
  first [rewrite read_members_app | idtac];
  erewrite L;
  [ cbn [rbind]; lay_out
  | try solve [ match goal with
                | |- forall r, _ = rbind _ _ => at_key
                | _ => first [assumption | reflexivity]
                end ] .. ].


Lemma EmbedFooter_not_null (f : EmbedFooter) : encode_EmbedFooter f <> JNull.
Proof. discriminate. Qed.


Lemma EmbedImage_not_null (i : EmbedImage) : encode_EmbedImage i <> JNull.
Proof. discriminate. Qed.


Lemma EmbedThumbnail_not_null (t : EmbedThumbnail) : encode_EmbedThumbnail t <> JNull.
Proof. discriminate. Qed.


Lemma EmbedVideo_not_null (v : EmbedVideo) : encode_EmbedVideo v <> JNull.
Proof. discriminate. Qed.


Lemma EmbedProvider_not_null (p : EmbedProvider) : encode_EmbedProvider p <> JNull.
Proof. discriminate. Qed.


Lemma EmbedAuthor_not_null (a : EmbedAuthor) : encode_EmbedAuthor a <> JNull.
Proof. discriminate. Qed.


Lemma EmbedField_not_null (f : EmbedField) : encode_EmbedField f <> JNull.
Proof. discriminate. Qed.












End Roundtrip.

(** ** More on the four methods: failures and the calls made *)
Section Traces.

Context {env : Env}.

Import reflect.

(** X1. When the transport fails, each of the four methods returns the
    transport's error as it is, and the request was its only call: nothing
    is read, decoded or closed. *)
Theorem transport_error_is_returned (w : WebhookAPI) (e : error) :
  (forall ctx wep file filename req,
      Execute_request w ctx wep file filename = Ok req ->
      http.Do (Client w) req = Err e ->
      returns (Execute ctx wep file filename) w = Err e
      /\ calls_of (Execute ctx wep file filename) w = [CallDo req])
  /\ (forall ctx,
        http.Do (Client w) (Get_request w ctx) = Err e ->
        returns (Get ctx) w = Err e
        /\ calls_of (Get ctx) w = [CallDo (Get_request w ctx)])
  /\ (forall ctx wmp,
        http.Do (Client w) (Modify_request w ctx wmp) = Err e ->
        returns (Modify ctx wmp) w = Err e
        /\ calls_of (Modify ctx wmp) w = [CallDo (Modify_request w ctx wmp)])
  /\ (forall ctx,
        http.Do (Client w) (Delete_request w) = Err e ->
        returns (Delete ctx) w = Err e
        /\ calls_of (Delete ctx) w = [CallDo (Delete_request w)]).
Proof.
  unfold returns, calls_of, start.
  split; [|split; [|split]]; intros.
  - rewrite Execute_run. cbn [this]. rewrite H, H0. split; reflexivity.
  - rewrite Get_run. cbv zeta. cbn [this]. rewrite H. split; reflexivity.
  - rewrite Modify_run. cbv zeta. cbn [this]. rewrite H. split; reflexivity.
  - rewrite Delete_run. cbv zeta. cbn [this]. rewrite H. split; reflexivity.
Qed.

(** X2. When the body of [Execute] cannot be built -- the parameters do not
    encode, or they do and the stream fails while it is copied -- [Execute]
    returns that error and the transport is never called. *)
Theorem Execute_build_error_sends_nothing (w : WebhookAPI) (ctx : option Context)
  (wep : option WebhookExecuteParams) (file : option Reader) (filename : string)
  (e : error) :
  Encode_wep wep = Err e
  \/ (is_ok (Encode_wep wep) = true
      /\ exists f, file = Some f /\ rd_err f = Some e) ->
  returns (Execute ctx wep file filename) w = Err e
  /\ calls_of (Execute ctx wep file filename) w = [].
Proof.
  intros H. unfold returns, calls_of, start. rewrite Execute_run. cbn [this].
  unfold Execute_request, Execute_form.
  destruct H as [Henc | [Henc [f [-> Hf]]]].
  - rewrite Henc. split; reflexivity.
  - destruct (Encode_wep wep) as [payload|]; [|discriminate].
    cbn [rbind]. unfold read_all. rewrite Hf. split; reflexivity.
Qed.

(** X3. On a status outside the accepted set, when reading the body of the
    response fails, each method returns the error of the read (there is no
    body text to make an error of). *)
Theorem unreadable_error_body (w : WebhookAPI) (res : http.Response) (e : error) :
  read_all (http.ResBody res) = Err e ->
  (forall ctx wep file filename req,
      Execute_request w ctx wep file filename = Ok req ->
      http.Do (Client w) req = Ok res ->
      accepts Execute_statuses (http.StatusCode res) = false ->
      returns (Execute ctx wep file filename) w = Err e)
  /\ (forall ctx,
        http.Do (Client w) (Get_request w ctx) = Ok res ->
        accepts Get_statuses (http.StatusCode res) = false ->
        returns (Get ctx) w = Err e)
  /\ (forall ctx wmp,
        http.Do (Client w) (Modify_request w ctx wmp) = Ok res ->
        accepts Modify_statuses (http.StatusCode res) = false ->
        returns (Modify ctx wmp) w = Err e)
  /\ (forall ctx,
        http.Do (Client w) (Delete_request w) = Ok res ->
        accepts Delete_statuses (http.StatusCode res) = false ->
        returns (Delete ctx) w = Err e).
Proof.
  intros Hread. unfold returns, start.
  split; [|split; [|split]]; intros.
  - rewrite Execute_run. cbn [this]. rewrite H, H0, H1. cbn [fst].
    rewrite Hread. reflexivity.
  - rewrite Get_run. cbv zeta. cbn [this]. rewrite H, H0. cbn [fst].
    rewrite Hread. reflexivity.
  - rewrite Modify_run. cbv zeta. cbn [this]. rewrite H, H0. cbn [fst].
    rewrite Hread. reflexivity.
  - rewrite Delete_run. cbv zeta. cbn [this]. rewrite H, H0. cbn [fst].
    rewrite Hread. reflexivity.
Qed.

(** X4. [Execute] closes the body of the response exactly once, as its last
    call, whenever the transport gave it a response -- whatever the status
    and whether or not decoding works -- and never otherwise.  [Get],
    [Modify] and [Delete] never close the body of their response. *)
Theorem body_is_closed_by_Execute_only (w : WebhookAPI) (ctx : option Context)
  (wep : option WebhookExecuteParams) (file : option Reader) (filename : string)
  (wmp : option WebhookModifyParams) :
  (match Execute_request w ctx wep file filename with
   | Ok req =>
       match http.Do (Client w) req with
       | Ok _ =>
           times is_CallClose (calls_of (Execute ctx wep file filename) w) = 1%nat
           /\ List.last (calls_of (Execute ctx wep file filename) w) (CallDo req)
              = CallClose
       | Err _ =>
           times is_CallClose (calls_of (Execute ctx wep file filename) w) = 0%nat
       end
   | Err _ => times is_CallClose (calls_of (Execute ctx wep file filename) w) = 0%nat
   end)
  /\ times is_CallClose (calls_of (Get ctx) w) = 0%nat
  /\ times is_CallClose (calls_of (Modify ctx wmp) w) = 0%nat
  /\ times is_CallClose (calls_of (Delete ctx) w) = 0%nat.
Proof.
  unfold calls_of, start.
  rewrite Execute_run, Get_run, Modify_run, Delete_run. cbv zeta. cbn [this].
  split; [|split; [|split]].
  - destruct (Execute_request w ctx wep file filename) as [req|]; [|reflexivity].
    destruct (http.Do (Client w) req) as [res|]; [|reflexivity].
    destruct (accepts _ _); [destruct (Wait w)|]; split; reflexivity.
  - destruct (http.Do _ _) as [res|]; [|reflexivity].
    destruct (accepts _ _); reflexivity.
  - destruct (http.Do _ _) as [res|]; [|reflexivity].
    destruct (accepts _ _); reflexivity.
  - destruct (http.Do _ _) as [res|]; [|reflexivity].
    destruct (accepts _ _); reflexivity.
Qed.

(** X5. Whatever the transport answers, [Get], [Modify] and [Delete] hand it
    exactly one request and [Execute] at most one; every request goes to
    the URL stored in the client, with the verb of the method, and [Get] and
    [Delete] send no body and no header. *)
Theorem one_request_to_the_stored_URL (w : WebhookAPI) (ctx : option Context)
  (wep : option WebhookExecuteParams) (file : option Reader) (filename : string)
  (wmp : option WebhookModifyParams) :
  (exists req,
      requests (calls_of (Get ctx) w) = [req]
      /\ http.Method req = "GET" /\ http.URL req = URL w
      /\ http.Body req = None /\ http.Header req = [] /\ http.Ctx req = ctx)
  /\ (exists req doc,
        requests (calls_of (Modify ctx wmp) w) = [req]
        /\ http.Method req = "PATCH" /\ http.URL req = URL w
        /\ http.Body req = Some (http.JSONDocument doc)
        /\ http.Header req = [("Content-Type", ["application/json"])]
        /\ http.Ctx req = ctx)
  /\ (exists req,
        requests (calls_of (Delete ctx) w) = [req]
        /\ http.Method req = "DELETE" /\ http.URL req = URL w
        /\ http.Body req = None /\ http.Header req = [])
  /\ (requests (calls_of (Execute ctx wep file filename) w) = []
      \/ exists req,
           requests (calls_of (Execute ctx wep file filename) w) = [req]
           /\ http.Method req = "POST" /\ http.URL req = URL w
           /\ http.Ctx req = ctx).
Proof.
  unfold calls_of, start.
  rewrite Execute_run, Get_run, Modify_run, Delete_run. cbv zeta. cbn [this].
  split; [|split; [|split]].
  - exists (Get_request w ctx).
    split; [|destruct ctx; repeat split; reflexivity].
    destruct (http.Do _ _) as [res|]; [|reflexivity].
    destruct (accepts _ _); reflexivity.
  - exists (Modify_request w ctx wmp), (ptr encode_WebhookModifyParams wmp).
    split; [|destruct ctx; repeat split; reflexivity].
    destruct (http.Do _ _) as [res|]; [|reflexivity].
    destruct (accepts _ _); reflexivity.
  - exists (Delete_request w).
    split; [|repeat split; reflexivity].
    destruct (http.Do _ _) as [res|]; [|reflexivity].
    destruct (accepts _ _); reflexivity.
  - unfold Execute_request.
    destruct (Execute_form wep file filename) as [mw|]; [|left; reflexivity].
    cbn [rbind]. right.
    exists (with_ctx ctx
              {| http.Method := "POST"; http.URL := URL w;
                 http.Header := [("Content-Type", [multipart.FormDataContentType mw])];
                 http.Body := Some (http.MultipartForm mw); http.Ctx := None |}).
    split; [|destruct ctx; repeat split; reflexivity].
    destruct (http.Do _ _) as [res|]; [|reflexivity].
    destruct (accepts _ _); [destruct (Wait w)|]; reflexivity.
Qed.

End Traces.

(** ** More on the records: what is written, what is read *)
Section Schema.

Context {env : Env}.

Import reflect.

Lemma rmap_list_ok {A B} (f : A -> result B) (l : list A) :
  is_ok (rmap_list f l) = true <-> Forall (fun a => is_ok (f a) = true) l.
Proof.
  induction l as [|a l IH]; cbn.
  - split; [constructor | reflexivity].
  - destruct (f a) as [b|] eqn:Hfa; cbn.
    + destruct (rmap_list f l); cbn in *.
      * split; [intros _; constructor; [rewrite Hfa; reflexivity | apply IH; reflexivity]
               | reflexivity].
      * split; [discriminate|]. intros H. inversion H; subst. apply IH. assumption.
    + split; [discriminate|]. intros H. inversion H; subst.
      rewrite Hfa in *. assumption.
Qed.

Lemma encode_Embed_ptr_ok (e : option Embed) :
  is_ok (encode_Embed_ptr e) = true <-> timestamp_ok e.
Proof.
  destruct e as [e|]; cbn; [|split; [constructor | reflexivity]].
  unfold encode_Embed, encode_timestamp.
  destruct (Embed_Timestamp e) as [t|]; cbn; [|split; [constructor | reflexivity]].
  destruct (time_MarshalJSON t); cbn; split; auto.
Qed.

(** X6. The parameters of [Execute] encode exactly when the time stamp of
    every embed can be marshalled: nothing else in the record can make the
    encoder fail. *)
Theorem encoding_fails_only_on_timestamps (p : WebhookExecuteParams) :
  is_ok (encode_WebhookExecuteParams p) = true <-> Forall timestamp_ok (Embeds p).
Proof.
  unfold encode_WebhookExecuteParams, encode_embeds.
  destruct (Embeds p) as [|e l] eqn:Hl; cbn [rbind is_ok].
  - split; [constructor | reflexivity].
  - rewrite <- Hl.
    assert (Hiff : is_ok (rmap_list encode_Embed_ptr (Embeds p)) = true
                   <-> Forall timestamp_ok (Embeds p)).
    { rewrite rmap_list_ok. split; apply Forall_impl; intros a; apply encode_Embed_ptr_ok. }
    destruct (rmap_list encode_Embed_ptr (Embeds p)); cbn [rbind is_ok] in *; exact Hiff.
Qed.

(** X7. Which members the encoded parameters of [Execute] hold: each of the
    six is there exactly when its field is not at its zero value -- a
    non-empty string, [tts] set, at least one embed, a non-nil pointer to
    allowed mentions (an empty record counts) -- and no key is written
    twice. *)
Theorem Execute_params_members (p : WebhookExecuteParams) (j : json) :
  encode_WebhookExecuteParams p = Ok j ->
  has_key "content" j = negb (Str.is_empty (Content p))
  /\ has_key "username" j = negb (Str.is_empty (Username p))
  /\ has_key "avatar_url" j = negb (Str.is_empty (AvatarURL p))
  /\ has_key "tts" j = TTS p
  /\ has_key "embeds" j = match Embeds p with [] => false | _ :: _ => true end
  /\ has_key "allowed_mentions" j = match Mentions p with None => false | Some _ => true end
  /\ NoDup (keys j).
Proof.
  unfold encode_WebhookExecuteParams, encode_embeds. intros Henc.
  destruct (Embeds p) as [|e l];
    [|destruct (rmap_list encode_Embed_ptr (e :: l)); [|discriminate]];
    injection Henc as <-;
    destruct (Content p), (Username p), (AvatarURL p), (TTS p), (Mentions p);
    repeat split; try reflexivity;
    cbn; repeat constructor; cbn; intuition discriminate.
Qed.


(** A member that does not name a field leaves the record as it is. *)
Lemma set_Webhook_unknown (w : Webhook) (key : string) (v : json) :
  names_field Webhook_keys key = false -> set_Webhook w key v = Ok w.
Proof.
  unfold names_field, Webhook_keys. cbn [List.existsb]. intros H.
  repeat (apply orb_false_iff in H; destruct H as [? H]).
  unfold set_Webhook.
  repeat match goal with
         | Hk : key_is ?name key = false |- _ => rewrite Hk; clear Hk
         end.
  reflexivity.
Qed.

(** X9. The decoder of [Webhook] skips the members it does not know: a
    member whose key names none of the eight fields can be dropped from the
    object, whatever its value, without changing what is decoded. *)
Theorem Webhook_unknown_members_are_skipped (before after : list (string * json))
  (key : string) (v : json) :
  names_field Webhook_keys key = false ->
  decode_Webhook (JObj (before ++ (key, v) :: after))
  = decode_Webhook (JObj (before ++ after)).
Proof.
  intros Hkey. unfold decode_Webhook, read_struct.
  rewrite !read_members_app.
  destruct (read_members set_Webhook before new_Webhook) as [w|]; cbn [rbind];
    [|reflexivity].
  cbn [read_members]. rewrite (set_Webhook_unknown w key v Hkey). reflexivity.
Qed.

(** A member that does not name the field read by [proj] leaves it alone. *)
Ltac set_keeps :=
  intros w w' key v Hkey; unfold set_Webhook; rewrite ?Hkey;
  repeat match goal with
         | |- context [if key_is ?name key then _ else _] =>
             destruct (key_is name key); try discriminate Hkey
         end;
  try match goal with
      | |- rbind ?r _ = _ -> _ => destruct r; cbn [rbind]
      end;
  intros H; try discriminate H; injection H as <-; reflexivity.

Lemma read_keeps {A} (proj : Webhook -> A) (name : string) :
  (forall w w' key v, key_is name key = false ->
                      set_Webhook w key v = Ok w' -> proj w' = proj w) ->
  forall members w w',
    List.existsb (key_is name) (map fst members) = false ->
    read_members set_Webhook members w = Ok w' ->
    proj w' = proj w.
Proof.
  intros Hset members. induction members as [|[key v] rest IH];
    intros w w' Hnone Hread; cbn in *.
  - injection Hread as <-. reflexivity.
  - apply orb_false_iff in Hnone. destruct Hnone as [Hkey Hrest].
    destruct (set_Webhook w key v) as [w1|] eqn:Hw1; [|discriminate].
    cbn in Hread. rewrite (IH w1 w' Hrest Hread). exact (Hset w w1 key v Hkey Hw1).
Qed.

Lemma decoded_field_is_zero {A} (proj : Webhook -> A) (name : string) (j : json)
  (wh : Webhook) :
  (forall w w' key v, key_is name key = false ->
                      set_Webhook w key v = Ok w' -> proj w' = proj w) ->
  decode_Webhook j = Ok wh ->
  has_key name j = false ->
  proj wh = proj new_Webhook.
Proof.
  intros Hset Hdec Hnone. unfold decode_Webhook, read_struct in Hdec.
  destruct j as [| | | | |members]; try discriminate.
  - injection Hdec as <-. reflexivity.
  - exact (read_keeps proj name Hset members new_Webhook wh Hnone Hdec).
Qed.

(** X10. A field of [Webhook] whose member is absent from the object comes
    out at its zero value: in particular a webhook read with its token,
    which carries no [user], decodes with a nil [User]. *)
Theorem Webhook_absent_members_are_zero (j : json) (wh : Webhook) :
  decode_Webhook j = Ok wh ->
  (has_key "id" j = false -> Webhook_ID wh = 0%N)
  /\ (has_key "type" j = false -> Webhook_Type wh = 0)
  /\ (has_key "guild_id" j = false -> Webhook_GuildID wh = 0%N)
  /\ (has_key "channel_id" j = false -> Webhook_ChannelID wh = 0%N)
  /\ (has_key "user" j = false -> Webhook_User wh = None)
  /\ (has_key "name" j = false -> Webhook_Name wh = "")
  /\ (has_key "avatar" j = false -> Webhook_Avatar wh = "")
  /\ (has_key "token" j = false -> Webhook_Token wh = "").
Proof.
  intros Hdec.
  repeat split; intros Hnone.
  - apply (decoded_field_is_zero Webhook_ID "id" j wh); [set_keeps | assumption..].
  - apply (decoded_field_is_zero Webhook_Type "type" j wh); [set_keeps | assumption..].
  - apply (decoded_field_is_zero Webhook_GuildID "guild_id" j wh);
      [set_keeps | assumption..].
  - apply (decoded_field_is_zero Webhook_ChannelID "channel_id" j wh);
      [set_keeps | assumption..].
  - apply (decoded_field_is_zero Webhook_User "user" j wh); [set_keeps | assumption..].
  - apply (decoded_field_is_zero Webhook_Name "name" j wh); [set_keeps | assumption..].
  - apply (decoded_field_is_zero Webhook_Avatar "avatar" j wh);
      [set_keeps | assumption..].
  - apply (decoded_field_is_zero Webhook_Token "token" j wh); [set_keeps | assumption..].
Qed.

End Schema.

(** ** More on construction: any token *)
Module UrlFacts.

Lemma existsb_app (p : ascii -> bool) (a b : string) :
  Str.existsb p (a ++ b) = Str.existsb p a || Str.existsb p b.
Proof.
  induction a as [|c a IH]; cbn; [reflexivity|].
  rewrite IH. apply orb_assoc.
Qed.

Lemma cut_app (sep : ascii) (p r : string) :
  Str.forallb (fun c => negb (Ascii.eqb c sep)) p = true ->
  Str.cut sep (p ++ r)
  = match Str.cut sep r with
    | Some (a, f) => Some (p ++ a, f)
    | None => None
    end.
Proof.
  induction p as [|c p IH]; cbn.
  - intros _. destruct (Str.cut sep r) as [[a f]|]; reflexivity.
  - intros H. apply andb_true_iff in H. destruct H as [Hc Hp].
    apply negb_true_iff in Hc. rewrite Hc, (IH Hp).
    destruct (Str.cut sep r) as [[a f]|]; reflexivity.
Qed.

Lemma drop_last_app (p : string) (c : ascii) (a : string) :
  url.drop_last (p ++ String c a) = p ++ url.drop_last (String c a).
Proof.
  induction p as [|x p IH]; [reflexivity|].
  cbn [append]. rewrite <- IH. destruct p; reflexivity.
Qed.

Lemma unescape_path_prefix (p s : string) :
  Str.forallb (fun c => negb (Ascii.eqb c "%")) p = true ->
  url.unescape url.encodePath (p ++ s)
  = rbind (url.unescape url.encodePath s) (fun t => Ok (p ++ t)).
Proof.
  induction p as [|c p IH]; cbn.
  - intros _. destruct (url.unescape url.encodePath s); reflexivity.
  - intros H. apply andb_true_iff in H. destruct H as [Hc Hp].
    apply negb_true_iff in Hc. rewrite Hc, (IH Hp).
    destruct (url.unescape url.encodePath s); reflexivity.
Qed.

Lemma append_inj_l (p a b : string) : p ++ a = p ++ b -> a = b.
Proof.
  induction p as [|c p IH]; cbn; [auto|]. intros H. injection H as H. auto.
Qed.

Lemma FormatUint_inj (n n' : N) :
  strconv.FormatUint n = strconv.FormatUint n' -> n = n'.
Proof.
  unfold strconv.FormatUint. intros H.
  assert (Hnonnil : forall m, N.to_uint m <> Decimal.Nil).
  { intros [|q]; [discriminate | apply DecimalPos.Unsigned.to_uint_nonnil]. }
  apply (f_equal NilZero.uint_of_string) in H.
  rewrite !NilZero.usu in H by apply Hnonnil.
  injection H as H. apply DecimalN.Unsigned.to_uint_inj. exact H.
Qed.

(** What [parse] makes of a text that starts with the prefix of the webhook
    URL, whatever follows. *)
Lemma parse_webhook_shape (a : string) (u : url.URL) :
  url.parse ("https://discord.com/api/webhooks/" ++ a) = Ok u ->
  url.Scheme u = "https" /\ url.Host u = "discord.com" /\ url.Opaque u = ""
  /\ exists t, url.Path u = "/api/webhooks/" ++ t.
Proof.
  unfold url.parse.
  destruct (url.stringContainsCTLByte _); [discriminate|].
  replace (String.eqb ("https://discord.com/api/webhooks/" ++ a) "*") with false
    by reflexivity.
  replace (url.getScheme ("https://discord.com/api/webhooks/" ++ a))
    with (Ok ("https", "//discord.com/api/webhooks/" ++ a)) by reflexivity.
  cbn [rbind]. cbv beta iota.
  set (P1 := "//discord.com/api/webhooks/").
  assert (Hsplit : exists a' force query,
    (if Str.last_is "?" (P1 ++ a) && Nat.eqb (Str.count "?" (P1 ++ a)) 1
     then (url.drop_last (P1 ++ a), true, EmptyString)
     else match Str.cut "?" (P1 ++ a) with
          | Some (before, after) => (before, false, after)
          | None => (P1 ++ a, false, EmptyString)
          end) = (P1 ++ a', force, query)).
  { destruct (Str.last_is "?" (P1 ++ a) && Nat.eqb (Str.count "?" (P1 ++ a)) 1) eqn:Hq.
    - destruct a as [|c a].
      + discriminate Hq.
      + rewrite drop_last_app. eexists _, _, _. reflexivity.
    - rewrite (cut_app "?" P1 a eq_refl).
      destruct (Str.cut "?" a) as [[x q]|]; eexists _, _, _; reflexivity. }
  destruct Hsplit as [a' [force [query ->]]]. subst P1.
  replace (Str.to_lower "https") with "https" by reflexivity.
  replace (prefix "/" ("//discord.com/api/webhooks/" ++ a')) with true by reflexivity.
  replace (prefix "//" ("//discord.com/api/webhooks/" ++ a')) with true by reflexivity.
  replace (Str.cut "/" (Str.drop 2 ("//discord.com/api/webhooks/" ++ a')))
    with (Some ("discord.com", "api/webhooks/" ++ a')) by reflexivity.
  cbn [negb Str.is_empty orb andb].
  replace (url.parseAuthority "discord.com") with (Ok "discord.com") by reflexivity.
  cbn [rbind]. unfold url.setPath.
  change (String "/" ("api/webhooks/" ++ a')) with ("/api/webhooks/" ++ a').
  rewrite (unescape_path_prefix "/api/webhooks/" a' eq_refl).
  destruct (url.unescape url.encodePath a') as [t|]; cbn [rbind]; [|discriminate].
  intros H. injection H as <-. cbn.
  repeat split. exists t. reflexivity.
Qed.

Lemma Parse_webhook_shape (r : string) (u : url.URL) :
  url.Parse ("https://discord.com/api/webhooks/" ++ r) = Ok u ->
  url.Scheme u = "https" /\ url.Host u = "discord.com" /\ url.Opaque u = ""
  /\ exists t, url.Path u = "/api/webhooks/" ++ t.
Proof.
  unfold url.Parse.
  rewrite (cut_app "#" "https://discord.com/api/webhooks/" r eq_refl).
  assert (Hgen : forall a frag,
    rbind (url.parse ("https://discord.com/api/webhooks/" ++ a))
      (fun url0 => if Str.is_empty frag then Ok url0 else url.setFragment url0 frag)
    = Ok u ->
    url.Scheme u = "https" /\ url.Host u = "discord.com" /\ url.Opaque u = ""
    /\ exists t, url.Path u = "/api/webhooks/" ++ t).
  { intros a frag.
    destruct (url.parse ("https://discord.com/api/webhooks/" ++ a)) as [u0|] eqn:Hu0;
      cbn [rbind]; [|discriminate].
    pose proof (parse_webhook_shape a u0 Hu0) as Hshape.
    destruct (Str.is_empty frag).
    - intros H. injection H as <-. exact Hshape.
    - unfold url.setFragment.
      destruct (url.unescape url.encodeFragment frag); cbn [rbind]; [|discriminate].
      intros H. injection H as <-. exact Hshape. }
  destruct (Str.cut "#" r) as [[a f]|]; apply Hgen.
Qed.

(** The URL of a webhook with a URL-safe token (the computation behind
    the construction of the client). *)
Lemma Parse_safe (id : Snowflake) (token : string) (wait : bool) :
  url_safe token = true ->
  url.Parse ("https://discord.com/api/webhooks/"
             ++ strconv.FormatUint id ++ "/" ++ token
             ++ "?wait=" ++ strconv.FormatBool wait)
  = Ok (webhook_url id token wait).
Proof.
  intros Hsafe. unfold webhook_url.
  replace ("https://discord.com/api/webhooks/" ++ strconv.FormatUint id ++ "/"
           ++ token ++ "?wait=" ++ strconv.FormatBool wait)
    with ("https://discord.com/api/webhooks/"
          ++ (strconv.FormatUint id ++ "/" ++ token)
          ++ "?" ++ ("wait=" ++ strconv.FormatBool wait)).
  2:{ rewrite !StrFacts.append_assoc. reflexivity. }
  rewrite StrFacts.Parse_webhook; [reflexivity | | | ].
  - rewrite !StrFacts.forallb_app. cbn.
    rewrite (StrFacts.forallb_impl _ _ _
               (fun c H => StrFacts.unreserved_is_path_byte c
                             (StrFacts.digit_is_unreserved c H))
               (StrFacts.FormatUint_digits id)).
    exact (StrFacts.forallb_impl _ _ _ StrFacts.unreserved_is_path_byte Hsafe).
  - destruct wait; reflexivity.
  - destruct wait; reflexivity.
Qed.

Lemma digit_is_no_slash (c : ascii) :
  Str.is_digit c = true -> negb (Ascii.eqb c "/") = true.
Proof. destruct c as [[] [] [] [] [] [] [] []]; vm_compute; intros; congruence. Qed.

End UrlFacts.

Section Tokens.

Context {env : Env}.

(** X11. Whatever the token holds, a client that [NewWebhookAPI] does build
    talks to the platform: the scheme of its URL is [https], the host is
    [discord.com], the path starts with [/api/webhooks/], and its wait flag
    is the one passed and its HTTP client the one given (the default one
    for nil).  No token can point the client at another host. *)
Theorem NewWebhookAPI_host_is_fixed (id : Snowflake) (token : string) (wait : bool)
  (client : option http.Client) (w : WebhookAPI) :
  NewWebhookAPI id token wait client = Ok w ->
  url.Scheme (URL w) = "https"
  /\ url.Host (URL w) = "discord.com"
  /\ url.Opaque (URL w) = ""
  /\ (exists t, url.Path (URL w) = "/api/webhooks/" ++ t)
  /\ Wait w = wait
  /\ Client w = match client with
                | None => http_DefaultClient
                | Some c => c
                end.
Proof.
  unfold NewWebhookAPI.
  destruct (url.Parse _) as [u|] eqn:Hu; [|discriminate].
  intros H. injection H as <-. cbn [URL Wait Client].
  destruct (UrlFacts.Parse_webhook_shape _ u Hu) as [Hs [Hh [Ho Hp]]].
  repeat split; assumption.
Qed.

(** X12. Distinct webhooks get distinct URLs: for URL-safe tokens, two
    clients built by [NewWebhookAPI] with the same URL were built from the
    same identifier, the same token and the same wait flag. *)
Theorem NewWebhookAPI_url_is_injective (id id' : Snowflake) (token token' : string)
  (wait wait' : bool) (client client' : option http.Client) (w w' : WebhookAPI) :
  url_safe token = true -> url_safe token' = true ->
  NewWebhookAPI id token wait client = Ok w ->
  NewWebhookAPI id' token' wait' client' = Ok w' ->
  URL w = URL w' ->
  id = id' /\ token = token' /\ wait = wait'.
Proof.
  intros Hsafe Hsafe'. unfold NewWebhookAPI.
  rewrite (UrlFacts.Parse_safe id token wait Hsafe).
  rewrite (UrlFacts.Parse_safe id' token' wait' Hsafe').
  intros H H'. injection H as <-. injection H' as <-. cbn [URL].
  unfold webhook_url. intros Heq. injection Heq as Hpath Hquery.
  assert (Hcut : Str.cut "/" (strconv.FormatUint id ++ String "/" token)
                 = Str.cut "/" (strconv.FormatUint id' ++ String "/" token'))
    by (rewrite Hpath; reflexivity).
  rewrite !StrFacts.cut_found in Hcut
    by (exact (StrFacts.forallb_impl _ _ _ UrlFacts.digit_is_no_slash
                 (StrFacts.FormatUint_digits _))).
  injection Hcut as Hid Htoken.
  split; [exact (UrlFacts.FormatUint_inj id id' Hid)|].
  split; [exact Htoken|].
  destruct wait, wait'; try reflexivity; discriminate Hquery.
Qed.

(** X13. A token that holds a control byte (a trailing newline, say) and no
    [#] makes [NewWebhookAPI] fail with the error of [url.Parse]; no client
    is built. *)
Theorem NewWebhookAPI_rejects_control_bytes (id : Snowflake) (token : string)
  (wait : bool) (client : option http.Client) :
  Str.existsb url.is_ctl token = true ->
  Str.contains "#" token = false ->
  NewWebhookAPI id token wait client
  = Err (url_Error "net/url: invalid control character in URL").
Proof.
  intros Hctl Hhash. unfold NewWebhookAPI, url.Parse.
  assert (Hdigits : forall c, Str.is_digit c = true -> negb (Ascii.eqb c "#") = true).
  { intros c. destruct c as [[] [] [] [] [] [] [] []]; vm_compute; intros; congruence. }
  assert (Htoken : Str.forallb (fun c => negb (Ascii.eqb c "#")) token = true).
  { unfold Str.contains in Hhash. clear Hctl.
    induction token as [|c t IH]; cbn [Str.existsb Str.forallb] in *; [reflexivity|].
    apply orb_false_iff in Hhash. destruct Hhash as [Hc Ht].
    rewrite Ascii.eqb_sym, Hc, (IH Ht). reflexivity. }
  rewrite StrFacts.cut_none.
  2:{ rewrite !StrFacts.forallb_app.
      rewrite (StrFacts.forallb_impl _ _ _ Hdigits (StrFacts.FormatUint_digits id)).
      rewrite Htoken. destruct wait; reflexivity. }
  unfold url.parse, url.stringContainsCTLByte.
  rewrite !UrlFacts.existsb_app, Hctl, !orb_true_r. reflexivity.
Qed.

End Tokens.

(** ** The methods on the reference environment *)
Section Examples.

#[local] Existing Instance Reference.env.

Import Reference reflect.

Example Execute_posts_and_decodes :
  returns (Execute None (Some hello) None "") (client true 200 posted)
  = Ok (Some {| Message_ID := 1234567890%N;
                Message_Others := [("content", JStr "hello")] |}).
Proof. reflexivity. Qed.

Example Execute_rate_limited :
  returns (Execute None (Some hello) None "") (client true 429 rate_limited)
  = Err (errors_New rate_limited).
Proof. reflexivity. Qed.

(** C1. [Modify] on a transport that answers 304 Not Modified with an empty
    body: the status passes the check, the decoder is called on the empty
    body, and [Modify] returns its error [io.EOF]. *)
Theorem Modify_not_modified_is_an_error :
  accepts Modify_statuses 304 = true
  /\ returns (Modify None (Some rename)) (client true 304 "") = Err io_EOF
  /\ calls_of (Modify None (Some rename)) (client true 304 "")
     = [CallDo (Modify_request (client true 304 "") None (Some rename)); CallDecode].
Proof. repeat split; reflexivity. Qed.

(** C2. [Modify] with only the name set: the body sent holds all three
    members, [avatar] and [channel_id] with their zero values. *)
Theorem Modify_sends_unset_fields :
  calls_of (Modify None (Some rename)) (client true 200 "{}")
  = [CallDo {| http.Method := "PATCH"; http.URL := endpoint;
               http.Header := [("Content-Type", ["application/json"])];
               http.Body := Some (http.JSONDocument
                                    (JObj [("name", JStr "new name");
                                           ("avatar", JStr "");
                                           ("channel_id", JStr "0")]));
               http.Ctx := None |};
     CallDecode].
Proof. reflexivity. Qed.

(** C3. [Delete] with a context that is already cancelled, on a transport
    that gives up on a cancelled request: the request goes out without the
    context and [Delete] returns success, where [Execute], [Get] and
    [Modify] with the same context on the same transport return
    [context.Canceled]. *)
Theorem Delete_drops_the_context :
  returns (Delete (Some canceled)) (client true 204 "") = Ok tt
  /\ calls_of (Delete (Some canceled)) (client true 204 "")
     = [CallDo {| http.Method := "DELETE"; http.URL := endpoint;
                  http.Header := []; http.Body := None; http.Ctx := None |}]
  /\ returns (Execute (Some canceled) (Some hello) None "") (client true 204 "")
     = Err context_Canceled
  /\ returns (Get (Some canceled)) (client true 204 "") = Err context_Canceled
  /\ returns (Modify (Some canceled) (Some rename)) (client true 204 "")
     = Err context_Canceled.
Proof. repeat split; reflexivity. Qed.

(** C4, as stated, fails: [Get] on a 200 whose body is not JSON passes the
    status check and does not succeed. *)
Lemma success_status_without_success :
  accepts Get_statuses (http.StatusCode (response 200 "Bad Gateway")) = true
  /\ returns (Get None) (client true 200 "Bad Gateway")
     = Err (json_Error "invalid JSON text")
  /\ ~ (accepts Get_statuses (http.StatusCode (response 200 "Bad Gateway")) = true ->
        is_ok (returns (Get None) (client true 200 "Bad Gateway")) = true).
Proof.
  split; [reflexivity|]. split; [reflexivity|].
  intros H. specialize (H eq_refl). discriminate H.
Qed.

Lemma status_decides_success_witness :
  http.Do (Client (client false 429 rate_limited))
    (Delete_request (client false 429 rate_limited))
  = Ok (response 429 rate_limited)
  /\ accepts Delete_statuses 429 = false
  /\ read_all (http.ResBody (response 429 rate_limited)) = Ok rate_limited
  /\ returns (Delete None) (client false 429 rate_limited)
     = Err (errors_New rate_limited).
Proof.
  assert (Hdo : http.Do (Client (client false 429 rate_limited))
                  (Delete_request (client false 429 rate_limited))
                = Ok (response 429 rate_limited)) by reflexivity.
  split; [exact Hdo|]. split; [reflexivity|]. split; [reflexivity|].
  destruct (status_decides_success (client false 429 rate_limited)
              (response 429 rate_limited)) as [_ [_ [_ HD]]].
  destruct (HD None Hdo) as [Hother _].
  apply Hother; reflexivity.
Defined.

Lemma hello_request (wait : bool) (status : Z) (body : string)
  (file : option Reader) (filename : string) :
  (forall f, file = Some f -> rd_err f = None) ->
  exists req,
    Execute_request (client wait status body) None (Some hello) file filename = Ok req
    /\ http.Do (Client (client wait status body)) req = Ok (response status body).
Proof.
  intros Hfile. unfold Execute_request, Execute_form. cbn [Encode_wep rbind].
  destruct file as [f|].
  - unfold read_all. rewrite (Hfile f eq_refl). eexists. split; reflexivity.
  - eexists. split; reflexivity.
Qed.

Lemma no_file : forall f : Reader, None = Some f -> rd_err f = None.
Proof. intros f H. discriminate H. Qed.

Lemma Execute_wait_flag_witness :
  (exists req,
      Execute_request (client true 200 posted) None (Some hello) None "" = Ok req
      /\ http.Do (Client (client true 200 posted)) req = Ok (response 200 posted))
  /\ Wait (client true 200 posted) = true
  /\ accepts Execute_statuses 200 = true
  /\ json_parse posted
     = Some (JObj [("id", JStr "1234567890"); ("content", JStr "hello")])
  /\ exists msg,
       returns (Execute None (Some hello) None "") (client true 200 posted)
       = Ok (Some msg)
       /\ Message_ID msg = 1234567890%N.
Proof.
  split; [exact (hello_request true 200 posted None "" no_file)|].
  split; [reflexivity|]. split; [reflexivity|]. split; [reflexivity|].
  destruct (hello_request true 200 posted None "" no_file) as [req [Hreq Hdo]].
  destruct (Execute_wait_flag (client true 200 posted) None (Some hello) None "")
    as [_ [_ Hvalid]].
  apply (Hvalid eq_refl req (response 200 posted)
           [("id", JStr "1234567890"); ("content", JStr "hello")]
           (JStr "1234567890") 1234567890%N Hreq Hdo);
    reflexivity.
Defined.

Lemma Execute_wait_empty_body_witness :
  (exists req,
      Execute_request (client true 204 "") None (Some hello) None "" = Ok req
      /\ http.Do (Client (client true 204 "")) req = Ok (response 204 ""))
  /\ Wait (client true 204 "") = true
  /\ accepts Execute_statuses 204 = true
  /\ returns (Execute None (Some hello) None "") (client true 204 "") = Err io_EOF.
Proof.
  split; [exact (hello_request true 204 "" None "" no_file)|].
  split; [reflexivity|]. split; [reflexivity|].
  destruct (hello_request true 204 "" None "" no_file) as [req [Hreq Hdo]].
  exact (proj1 (Execute_wait_empty_body (client true 204 "") None (Some hello)
                  None "" req (response 204 "") Hreq Hdo eq_refl eq_refl eq_refl)).
Defined.

Lemma attachment_readable : forall f : Reader, Some attachment = Some f -> rd_err f = None.
Proof. intros f H. injection H as <-. reflexivity. Qed.

Lemma Execute_sends_multipart_form_witness :
  Encode_wep (Some hello) = Ok (JObj [("content", JStr "hello")])
  /\ exists req rest,
       calls_of (Execute None (Some hello) (Some attachment) "cat.gif")
         (client false 204 "")
       = CallDo req :: rest
       /\ http.Body req
          = Some (http.MultipartForm
                    (form [payload_part (JObj [("content", JStr "hello")]);
                           file_part "cat.gif" "GIF89a"])).
Proof.
  split; [reflexivity|].
  destruct (Execute_sends_multipart_form (client false 204 "") None (Some hello)
              (Some attachment) "cat.gif") as [_ Hsent].
  destruct (Hsent (JObj [("content", JStr "hello")]) eq_refl attachment_readable)
    as [req [rest [Hcalls [_ [_ [_ Hbody]]]]]].
  exists req, rest. split; [exact Hcalls | exact Hbody].
Defined.

(** A token that is not URL-safe: [url.Parse] succeeds, but the [#] of the
    token starts the fragment, and the wait flag ends up there. *)
Example token_with_fragment :
  url_safe "to#ken" = false
  /\ NewWebhookAPI 42%N "to#ken" true None
     = Ok {| URL := {| url.Scheme := "https"; url.Opaque := "";
                       url.Host := "discord.com";
                       url.Path := "/api/webhooks/42/to"; url.RawPath := "";
                       url.ForceQuery := false; url.RawQuery := "";
                       url.Fragment := "ken?wait=true"; url.RawFragment := "" |};
             Client := offline; Wait := true |}.
Proof. split; reflexivity. Qed.

(** A token with a malformed escape: construction fails. *)
Example token_with_bad_escape :
  NewWebhookAPI 42%N "to%zzken" true None = Err (url_Error "invalid URL escape").
Proof. reflexivity. Qed.





End Examples.

(** ** More runs on the reference environments *)
Section MoreExamples.

#[local] Existing Instance Reference.env.

Import Reference reflect.

Lemma transport_error_is_returned_witness :
  http.Do (Client unreachable) (Get_request unreachable None)
  = Err (transport_Error "dial tcp: no route to host")
  /\ returns (Get None) unreachable = Err (transport_Error "dial tcp: no route to host")
  /\ calls_of (Get None) unreachable = [CallDo (Get_request unreachable None)].
Proof.
  split; [reflexivity|].
  destruct (transport_error_is_returned unreachable
              (transport_Error "dial tcp: no route to host")) as [_ [HG _]].
  exact (HG None eq_refl).
Defined.

Lemma Execute_build_error_sends_nothing_witness :
  @Encode_wep years (Some (dated 10000))
  = Err (json_Error "Time.MarshalJSON: year outside of range [0,9999]")
  /\ calls_of (@Execute years None (Some (dated 10000)) None "")
       {| URL := endpoint; Client := server 204 ""; Wait := false |} = []
  /\ is_ok (Encode_wep (Some hello)) = true
  /\ rd_err broken_file = Some (read_Error "unexpected EOF")
  /\ returns (Execute None (Some hello) (Some broken_file) "cat.gif") (client false 204 "")
     = Err (read_Error "unexpected EOF")
  /\ calls_of (Execute None (Some hello) (Some broken_file) "cat.gif") (client false 204 "")
     = [].
Proof.
  split; [reflexivity|].
  split.
  { exact (proj2 (@Execute_build_error_sends_nothing years
                    {| URL := endpoint; Client := server 204 ""; Wait := false |}
                    None (Some (dated 10000)) None ""
                    (json_Error "Time.MarshalJSON: year outside of range [0,9999]")
                    (or_introl eq_refl))). }
  split; [reflexivity|]. split; [reflexivity|].
  exact (Execute_build_error_sends_nothing (client false 204 "") None (Some hello)
           (Some broken_file) "cat.gif" (read_Error "unexpected EOF")
           (or_intror (conj eq_refl (ex_intro _ broken_file (conj eq_refl eq_refl))))).
Defined.

Lemma unreadable_error_body_witness :
  read_all {| rd_data := ""; rd_err := Some (read_Error "connection reset") |}
  = Err (read_Error "connection reset")
  /\ accepts Delete_statuses 502 = false
  /\ returns (Delete None)
       {| URL := endpoint;
          Client := broken_body 502 (read_Error "connection reset");
          Wait := false |}
     = Err (read_Error "connection reset").
Proof.
  split; [reflexivity|]. split; [reflexivity|].
  destruct (unreadable_error_body
              {| URL := endpoint;
                 Client := broken_body 502 (read_Error "connection reset");
                 Wait := false |}
              {| http.StatusCode := 502;
                 http.ResBody := {| rd_data := "";
                                    rd_err := Some (read_Error "connection reset") |} |}
              (read_Error "connection reset") eq_refl) as [_ [_ [_ HD]]].
  exact (HD None eq_refl eq_refl).
Defined.

Lemma Execute_params_members_witness :
  encode_WebhookExecuteParams announcement = Ok announcement_document
  /\ has_key "content" announcement_document = false
  /\ has_key "username" announcement_document = true
  /\ has_key "tts" announcement_document = false
  /\ has_key "embeds" announcement_document = true
  /\ has_key "allowed_mentions" announcement_document = true.
Proof.
  split; [reflexivity|].
  destruct (Execute_params_members announcement announcement_document eq_refl)
    as [Hc [Hu [_ [Ht [He [Hm _]]]]]].
  repeat split; assumption.
Defined.


Lemma Webhook_unknown_members_are_skipped_witness :
  names_field Webhook_keys "application_id" = false
  /\ decode_Webhook bare_webhook
     = decode_Webhook
         (JObj [("id", JStr "42"); ("type", JNum 1); ("channel_id", JStr "7");
                ("name", JStr "hook"); ("token", JStr "tok")]).
Proof.
  split; [reflexivity|].
  exact (Webhook_unknown_members_are_skipped
           [("id", JStr "42"); ("type", JNum 1); ("channel_id", JStr "7");
            ("name", JStr "hook")]
           [("token", JStr "tok")] "application_id" JNull eq_refl).
Defined.

Lemma Webhook_absent_members_are_zero_witness :
  decode_Webhook bare_webhook
  = Ok {| Webhook_ID := 42%N; Webhook_Type := WebhookTypeIncoming;
          Webhook_GuildID := 0%N; Webhook_ChannelID := 7%N; Webhook_User := None;
          Webhook_Name := "hook"; Webhook_Avatar := ""; Webhook_Token := "tok" |}
  /\ has_key "user" bare_webhook = false
  /\ forall wh, decode_Webhook bare_webhook = Ok wh -> Webhook_User wh = None.
Proof.
  split; [reflexivity|]. split; [reflexivity|].
  intros wh Hwh.
  destruct (Webhook_absent_members_are_zero bare_webhook wh Hwh)
    as [_ [_ [_ [_ [Huser _]]]]].
  exact (Huser eq_refl).
Defined.

Lemma NewWebhookAPI_host_is_fixed_witness :
  is_ok (NewWebhookAPI 42%N hostile_token true None) = true
  /\ forall w, NewWebhookAPI 42%N hostile_token true None = Ok w ->
               url.Host (URL w) = "discord.com".
Proof.
  split; [reflexivity|].
  intros w Hw.
  destruct (NewWebhookAPI_host_is_fixed 42%N hostile_token true None w Hw)
    as [_ [Hhost _]].
  exact Hhost.
Defined.

Lemma NewWebhookAPI_url_is_injective_witness :
  url_safe "tokA" = true /\ url_safe "tokB" = true
  /\ forall w w',
       NewWebhookAPI 42%N "tokA" true None = Ok w ->
       NewWebhookAPI 42%N "tokB" true None = Ok w' ->
       URL w <> URL w'.
Proof.
  split; [reflexivity|]. split; [reflexivity|].
  intros w w' Hw Hw' Heq.
  destruct (NewWebhookAPI_url_is_injective 42%N 42%N "tokA" "tokB" true true
              None None w w' eq_refl eq_refl Hw Hw' Heq) as [_ [Htoken _]].
  discriminate Htoken.
Defined.

Lemma NewWebhookAPI_rejects_control_bytes_witness :
  Str.existsb url.is_ctl token_with_newline = true
  /\ Str.contains "#" token_with_newline = false
  /\ NewWebhookAPI 42%N token_with_newline true None
     = Err (url_Error "net/url: invalid control character in URL").
Proof.
  split; [reflexivity|]. split; [reflexivity|].
  exact (NewWebhookAPI_rejects_control_bytes 42%N token_with_newline true None
           eq_refl eq_refl).
Defined.

End MoreExamples.
